(** * Workflow step tools for text documents: textanalyze, textrefactor, textreview

    A shallow embedding of the three request models and of the three step
    controllers of [tools/textanalyze.py], [tools/textrefactor.py] and
    [tools/textreview.py], with the properties of their validation, of their
    step decisions and of their expert-analysis context.

    Python values are embedded as follows.
    - [str] is [string]; a string is read as the bytes of its UTF-8 text, so
      concatenation and [join] are the ones of Python.
    - [int] is [Z] (Python integers are unbounded).
    - [Optional[T]] is [option T], [list[T]] is [list T].
    - a [Literal[...]] field is a [string] that validation has compared with
      the listed words, as it is at run time.
    - a pydantic model instance is a record with the fields of the class, in
      the order of the class body.
    - raising [ValidationError] is the left summand of [V]. *)

From Stdlib Require Import String Ascii List ZArith Bool Lia.
From Stdlib Require DecimalString.
Import ListNotations.

Local Open Scope string_scope.
Local Open Scope Z_scope.

(** ** Python text primitives *)

(** The line feed, ["\n"] in the source. *)
Definition nl : string := String (ascii_of_nat 10) EmptyString.

(** [sep.join(parts)]. *)
Definition join (sep : string) (parts : list string) : string :=
  String.concat sep parts.

(** [str(n)] for an [int], as an f-string renders it: decimal digits, with a
    leading minus sign for a negative number. *)
Definition str_int (n : Z) : string :=
  DecimalString.NilZero.string_of_int (Z.to_int n).

(** [c.upper()] on one ASCII character; the words it is applied to are the
    lower-case words of a [Literal] vocabulary. *)
Definition upper_ascii (c : ascii) : ascii :=
  let n := nat_of_ascii c in
  if (Nat.leb 97 n && Nat.leb n 122)%bool then ascii_of_nat (n - 32) else c.

(** [s.upper()]. *)
Fixpoint upper (s : string) : string :=
  match s with
  | EmptyString => EmptyString
  | String c rest => String (upper_ascii c) (upper rest)
  end.

(** [x in [w1, ..., wn]] for strings. *)
Definition py_in (x : string) (words : list string) : bool :=
  existsb (String.eqb x) words.

Arguments py_in : simpl never.

(** Truth value of an [Optional[list[T]]]: [None] and the empty list are
    false, every other list is true. *)
Definition truthy {A : Type} (v : option (list A)) : bool :=
  match v with
  | Some (_ :: _) => true
  | _ => false
  end.

(** The entries a [for] loop or a comprehension runs over; it is only
    evaluated on a value that is [truthy]. *)
Definition entries {A : Type} (v : option (list A)) : list A :=
  match v with
  | Some l => l
  | None => []
  end.

(** [parts.extend(more)]. *)
Definition extend {A : Type} (parts more : list A) : list A := (parts ++ more)%list.

(** The lines of a text: the pieces between line feeds, [s.split("\n")]. *)
Fixpoint lines_from (cur : string) (s : string) : list string :=
  match s with
  | EmptyString => [cur]
  | String c rest =>
      if Ascii.eqb c (ascii_of_nat 10)
      then cur :: lines_from EmptyString rest
      else lines_from (cur ++ String c EmptyString) rest
  end.

Definition lines (s : string) : list string := lines_from EmptyString s.

(** A text that holds no line feed. *)
Fixpoint single_line (s : string) : bool :=
  match s with
  | EmptyString => true
  | String c rest => negb (Ascii.eqb c (ascii_of_nat 10)) && single_line rest
  end.

(** [needle in text]: the needle occurs as a contiguous part of the text. *)
Fixpoint occurs_in (needle text : string) : bool :=
  if String.prefix needle text then true
  else match text with
       | EmptyString => false
       | String _ rest => occurs_in needle rest
       end.

(** A list value that holds at least one entry. *)
Definition non_empty {A : Type} (v : option (list A)) : Prop :=
  exists x rest, v = Some (x :: rest).

(** The text of the entries of one section of a context: each entry on a
    new line, after a dash. *)
Fixpoint bullet_lines (items : list string) : string :=
  match items with
  | [] => EmptyString
  | item :: rest => nl ++ "- " ++ item ++ bullet_lines rest
  end.

(** The text of one section of a context: an empty line, the title, the
    entries. *)
Definition section_text (title : string) (items : list string) : string :=
  nl ++ nl ++ title ++ bullet_lines items.

(** What one optional section adds to a context: nothing when the list is
    [None] or empty, else the section with its rendered entries. *)
Definition optional_section {A : Type} (title : string) (render : A -> string)
  (items : option (list A)) : string :=
  if truthy items then section_text title (map render (entries items))
  else EmptyString.

(** One conditional [extend] of [prepare_expert_analysis_context]: when the
    list is true, an empty part, the title and one dashed part for each
    entry are added. *)
Definition add_section {A : Type} (parts : list string) (title : string)
  (render : A -> string) (items : option (list A)) : list string :=
  if truthy items
  then extend parts ("" :: title :: map (fun x => "- " ++ render x) (entries items))
  else parts.

(** ** JSON-like values: the [Any] of [dict[str, Any]] *)

#[warnings="-register-all"]
Inductive pyval : Type :=
| PyNone
| PyBool (b : bool)
| PyInt (n : Z)
| PyStr (s : string)
| PyList (items : list pyval)
| PyDict (items : list (string * pyval)).

(** One entry of [issues_found], a [dict[str, Any]]: its items in insertion
    order. *)
Definition Issue : Type := list (string * pyval).

(** [d.get(key)]. *)
Fixpoint dict_get (key : string) (d : Issue) : option pyval :=
  match d with
  | [] => None
  | (k, v) :: rest => if String.eqb k key then Some v else dict_get key rest
  end.

(** The severity words of the [issues_found] field descriptions. *)
Definition severity_levels : list string := ["critical"; "high"; "medium"; "low"].

(** An issue whose ["severity"] is one of the four words. *)
Definition severity_ok (issue : Issue) : bool :=
  match dict_get "severity" issue with
  | Some (PyStr s) => py_in s severity_levels
  | _ => false
  end.

(** ** pydantic validation *)

(** The [type] of one line of a [ValidationError], with its context. *)
Inductive ErrorKind : Type :=
| missing
| greater_than_equal (ge : Z)
| literal_error (expected : list string).

(** One line of a [ValidationError]: the field it is about and what failed. *)
Record ErrorDetails : Type := { loc : string; kind : ErrorKind }.

(** The outcome of validating something of type [A]: the value, or the
    error lines that [ValidationError] carries. *)
Definition V (A : Type) : Type := (list ErrorDetails + A)%type.

Definition pure {A : Type} (a : A) : V A := inr a.

(** Fields are validated one after the other and every failure is kept. *)
Definition ap {A B : Type} (f : V (A -> B)) (x : V A) : V B :=
  match f, x with
  | inr g, inr a => inr (g a)
  | inr _, inl e => inl e
  | inl e, inr _ => inl e
  | inl e1, inl e2 => inl (e1 ++ e2)%list
  end.

(** Code that runs after validation: it is skipped when validation raised. *)
Definition bind {A B : Type} (v : V A) (k : A -> V B) : V B :=
  match v with
  | inl e => inl e
  | inr a => k a
  end.

Notation "f <*> x" := (ap f x) (at level 51, left associativity).

(** The error lines of an outcome; none when it is a value. *)
Definition errors {A : Type} (v : V A) : list ErrorDetails :=
  match v with
  | inl e => e
  | inr _ => []
  end.

Definition is_valid {A : Type} (v : V A) : bool :=
  match v with
  | inl _ => false
  | inr _ => true
  end.

(** An outcome that is a value, or a rejection with at least one line. *)
Definition definite {A : Type} (v : V A) : Prop :=
  match v with
  | inl es => es <> []
  | inr _ => True
  end.

(** [Field(...)]: a required field. *)
Definition required {A : Type} (name : string) (v : option A) : V A :=
  match v with
  | Some a => inr a
  | None => inl [ {| loc := name; kind := missing |} ]
  end.

(** [int = Field(..., ge=lo)]. *)
Definition required_ge (name : string) (lo : Z) (v : option Z) : V Z :=
  match v with
  | Some n => if lo <=? n then inr n
              else inl [ {| loc := name; kind := greater_than_equal lo |} ]
  | None => inl [ {| loc := name; kind := missing |} ]
  end.

(** [Optional[int] = Field(default=None, ge=lo)]. *)
Definition optional_ge (name : string) (lo : Z) (v : option (option Z))
  : V (option Z) :=
  match v with
  | Some (Some n) => if lo <=? n then inr (Some n)
                     else inl [ {| loc := name; kind := greater_than_equal lo |} ]
  | Some None => inr None
  | None => inr None
  end.

(** [Optional[list[T]] = Field(default_factory=list)]. *)
Definition optional_list {A : Type} (v : option (option (list A)))
  : V (option (list A)) :=
  match v with
  | Some given => inr given
  | None => inr (Some [])
  end.

(** [Optional[str] = Field(default=None)]. *)
Definition optional_str (v : option (option string)) : V (option string) :=
  match v with
  | Some given => inr given
  | None => inr None
  end.

(** [Literal[w1, ..., wn] = Field(default=d)]. *)
Definition literal (name : string) (words : list string) (default : string)
  (v : option string) : V string :=
  match v with
  | Some s => if py_in s words then inr s
              else inl [ {| loc := name; kind := literal_error words |} ]
  | None => inr default
  end.

(** A rejection that names [field] with the failure [failure]; what is
    sequenced after the validation is then not run. *)
Definition rejected_at {A : Type} (v : V A) (field : string)
  (failure : ErrorKind) : Prop :=
  exists es,
    v = inl es /\
    In {| loc := field; kind := failure |} es /\
    forall (B : Type) (k : A -> V B), bind v k = inl es.

(** ** tools/textanalyze.py *)

Module TextAnalyze.

(** The arguments of one call, before validation: each field is absent
    ([None]) or given, and a given value already has the JSON kind of its
    field. An [Optional] field can be given as [null], which is
    [Some None]. *)
Record Arguments : Type := {
  arg_step : option string;
  arg_step_number : option Z;
  arg_total_steps : option Z;
  arg_next_step_required : option bool;
  arg_findings : option string;
  arg_files_checked : option (option (list string));
  arg_relevant_files : option (option (list string));
  arg_relevant_context : option (option (list string));
  arg_issues_found : option (option (list Issue));
  arg_analysis_type : option string;
  arg_output_format : option string;
  arg_confidence : option string;
  arg_backtrack_from_step : option (option Z)
}.

(** [class TextAnalyzeRequest(WorkflowRequest)]: a validated request. *)
Record Request : Type := {
  step : string;
  step_number : Z;
  total_steps : Z;
  next_step_required : bool;
  findings : string;
  files_checked : option (list string);
  relevant_files : option (list string);
  relevant_context : option (list string);
  issues_found : option (list Issue);
  analysis_type : string;
  output_format : string;
  confidence : string;
  backtrack_from_step : option Z
}.

Definition analysis_types : list string :=
  ["structure"; "themes"; "arguments"; "style"; "readability"; "general"].

Definition output_formats : list string := ["summary"; "detailed"; "actionable"].

Definition confidences : list string :=
  ["exploring"; "low"; "medium"; "high"; "very_high"; "almost_certain"; "certain"].

(** Building a [TextAnalyzeRequest] from the arguments of a call: the
    fields are validated in the order of the class body. *)
Definition validate (a : Arguments) : V Request :=
  pure Build_Request
    <*> required "step" a.(arg_step)
    <*> required_ge "step_number" 1 a.(arg_step_number)
    <*> required_ge "total_steps" 1 a.(arg_total_steps)
    <*> required "next_step_required" a.(arg_next_step_required)
    <*> required "findings" a.(arg_findings)
    <*> optional_list a.(arg_files_checked)
    <*> optional_list a.(arg_relevant_files)
    <*> optional_list a.(arg_relevant_context)
    <*> optional_list a.(arg_issues_found)
    <*> literal "analysis_type" analysis_types "general" a.(arg_analysis_type)
    <*> literal "output_format" output_formats "detailed" a.(arg_output_format)
    <*> literal "confidence" confidences "exploring" a.(arg_confidence)
    <*> optional_ge "backtrack_from_step" 1 a.(arg_backtrack_from_step).

(** What every instance of [TextAnalyzeRequest] satisfies. *)
Definition valid (request : Request) : Prop :=
  1 <= request.(step_number) /\
  1 <= request.(total_steps) /\
  py_in request.(analysis_type) analysis_types = true /\
  py_in request.(output_format) output_formats = true /\
  py_in request.(confidence) confidences = true /\
  (forall n, request.(backtrack_from_step) = Some n -> 1 <= n).

(** The arguments that spell a request out in full. *)
Definition to_arguments (request : Request) : Arguments :=
  {| arg_step := Some request.(step);
     arg_step_number := Some request.(step_number);
     arg_total_steps := Some request.(total_steps);
     arg_next_step_required := Some request.(next_step_required);
     arg_findings := Some request.(findings);
     arg_files_checked := Some request.(files_checked);
     arg_relevant_files := Some request.(relevant_files);
     arg_relevant_context := Some request.(relevant_context);
     arg_issues_found := Some request.(issues_found);
     arg_analysis_type := Some request.(analysis_type);
     arg_output_format := Some request.(output_format);
     arg_confidence := Some request.(confidence);
     arg_backtrack_from_step := Some request.(backtrack_from_step) |}.

(** The same arguments with [step] replaced. *)
Definition with_arg_step (v : option string) (a : Arguments) : Arguments :=
  {| arg_step := v;
     arg_step_number := a.(arg_step_number);
     arg_total_steps := a.(arg_total_steps);
     arg_next_step_required := a.(arg_next_step_required);
     arg_findings := a.(arg_findings);
     arg_files_checked := a.(arg_files_checked);
     arg_relevant_files := a.(arg_relevant_files);
     arg_relevant_context := a.(arg_relevant_context);
     arg_issues_found := a.(arg_issues_found);
     arg_analysis_type := a.(arg_analysis_type);
     arg_output_format := a.(arg_output_format);
     arg_confidence := a.(arg_confidence);
     arg_backtrack_from_step := a.(arg_backtrack_from_step) |}.

(** The same arguments with [issues_found] replaced. *)
Definition with_arg_issues_found (v : option (option (list Issue))) (a : Arguments) : Arguments :=
  {| arg_step := a.(arg_step);
     arg_step_number := a.(arg_step_number);
     arg_total_steps := a.(arg_total_steps);
     arg_next_step_required := a.(arg_next_step_required);
     arg_findings := a.(arg_findings);
     arg_files_checked := a.(arg_files_checked);
     arg_relevant_files := a.(arg_relevant_files);
     arg_relevant_context := a.(arg_relevant_context);
     arg_issues_found := v;
     arg_analysis_type := a.(arg_analysis_type);
     arg_output_format := a.(arg_output_format);
     arg_confidence := a.(arg_confidence);
     arg_backtrack_from_step := a.(arg_backtrack_from_step) |}.

(** The same request with [relevant_context] replaced. *)
Definition with_relevant_context (v : option (list string)) (request : Request) : Request :=
  {| step := request.(step);
     step_number := request.(step_number);
     total_steps := request.(total_steps);
     next_step_required := request.(next_step_required);
     findings := request.(findings);
     files_checked := request.(files_checked);
     relevant_files := request.(relevant_files);
     relevant_context := v;
     issues_found := request.(issues_found);
     analysis_type := request.(analysis_type);
     output_format := request.(output_format);
     confidence := request.(confidence);
     backtrack_from_step := request.(backtrack_from_step) |}.

Definition should_embed_files_as_context (request : Request) : bool :=
  if request.(step_number) =? 1 then true
  else if truthy request.(relevant_files) then true
  else if py_in request.(analysis_type) ["structure"; "themes"; "arguments"] then true
  else false.

Definition step_1_actions : list string :=
  [ "Use Read tool to examine the text document(s) specified in relevant_files";
    "Understand the document structure and main content areas";
    "Identify key themes, arguments, and organizational patterns";
    "Map out the text structure and content flow" ].

Definition later_step_actions : list string :=
  [ "Continue investigating specific aspects identified in previous steps";
    "Use Read tool to examine additional sections or related documents";
    "Gather concrete evidence to support your analysis";
    "Build on previous findings with new insights" ].

Definition get_required_actions (request : Request) : list string :=
  let actions := [] in
  if request.(step_number) =? 1
  then extend actions step_1_actions
  else extend actions later_step_actions.

Definition should_call_expert_analysis (request : Request) : bool :=
  negb (String.eqb request.(confidence) "certain").

Section Context.

(** [str(issue)] for a dictionary, Python's own rendering of a [dict];
    the f-string ["- {issue}"] calls it. *)
Variable str_dict : Issue -> string.

Definition prepare_expert_analysis_context (request : Request) : string :=
  let context_parts :=
    [ "TEXT ANALYSIS REQUEST - " ++ upper request.(analysis_type);
      "Analysis confidence: " ++ request.(confidence);
      "Step " ++ str_int request.(step_number) ++ " of "
        ++ str_int request.(total_steps);
      "";
      "ANALYSIS FINDINGS:";
      request.(findings) ] in
  let context_parts :=
    if truthy request.(issues_found)
    then extend context_parts
           ("" :: "ISSUES IDENTIFIED:"
              :: map (fun issue => "- " ++ str_dict issue)
                   (entries request.(issues_found)))
    else context_parts in
  let context_parts :=
    if truthy request.(relevant_context)
    then extend context_parts
           ("" :: "KEY THEMES/ARGUMENTS:"
              :: map (fun context => "- " ++ context)
                   (entries request.(relevant_context)))
    else context_parts in
  join nl context_parts.

End Context.

(** The first five parts of the context, joined: what stands before the
    findings. *)
Definition heading (request : Request) : string :=
  join nl
    [ "TEXT ANALYSIS REQUEST - " ++ upper request.(analysis_type);
      "Analysis confidence: " ++ request.(confidence);
      "Step " ++ str_int request.(step_number) ++ " of "
        ++ str_int request.(total_steps);
      "";
      "ANALYSIS FINDINGS:" ].

Definition prepare_prompt (request : Request) : string := request.(step).

End TextAnalyze.

(** ** tools/textrefactor.py *)

Module TextRefactor.

Record Arguments : Type := {
  arg_step : option string;
  arg_step_number : option Z;
  arg_total_steps : option Z;
  arg_next_step_required : option bool;
  arg_findings : option string;
  arg_files_checked : option (option (list string));
  arg_relevant_files : option (option (list string));
  arg_relevant_context : option (option (list string));
  arg_issues_found : option (option (list Issue));
  arg_refactor_type : option string;
  arg_focus_areas : option (option (list string));
  arg_style_guide_examples : option (option (list string));
  arg_confidence : option string;
  arg_backtrack_from_step : option (option Z)
}.

(** [class TextRefactorRequest(WorkflowRequest)]: a validated request. *)
Record Request : Type := {
  step : string;
  step_number : Z;
  total_steps : Z;
  next_step_required : bool;
  findings : string;
  files_checked : option (list string);
  relevant_files : option (list string);
  relevant_context : option (list string);
  issues_found : option (list Issue);
  refactor_type : string;
  focus_areas : option (list string);
  style_guide_examples : option (list string);
  confidence : string;
  backtrack_from_step : option Z
}.

Definition refactor_types : list string :=
  ["organization"; "clarity"; "arguments"; "style"; "flow"].

Definition confidences : list string :=
  ["exploring"; "incomplete"; "partial"; "complete"].

Definition validate (a : Arguments) : V Request :=
  pure Build_Request
    <*> required "step" a.(arg_step)
    <*> required_ge "step_number" 1 a.(arg_step_number)
    <*> required_ge "total_steps" 1 a.(arg_total_steps)
    <*> required "next_step_required" a.(arg_next_step_required)
    <*> required "findings" a.(arg_findings)
    <*> optional_list a.(arg_files_checked)
    <*> optional_list a.(arg_relevant_files)
    <*> optional_list a.(arg_relevant_context)
    <*> optional_list a.(arg_issues_found)
    <*> literal "refactor_type" refactor_types "organization" a.(arg_refactor_type)
    <*> optional_list a.(arg_focus_areas)
    <*> optional_list a.(arg_style_guide_examples)
    <*> literal "confidence" confidences "incomplete" a.(arg_confidence)
    <*> optional_ge "backtrack_from_step" 1 a.(arg_backtrack_from_step).

(** What every instance of [TextRefactorRequest] satisfies. *)
Definition valid (request : Request) : Prop :=
  1 <= request.(step_number) /\
  1 <= request.(total_steps) /\
  py_in request.(refactor_type) refactor_types = true /\
  py_in request.(confidence) confidences = true /\
  (forall n, request.(backtrack_from_step) = Some n -> 1 <= n).

Definition to_arguments (request : Request) : Arguments :=
  {| arg_step := Some request.(step);
     arg_step_number := Some request.(step_number);
     arg_total_steps := Some request.(total_steps);
     arg_next_step_required := Some request.(next_step_required);
     arg_findings := Some request.(findings);
     arg_files_checked := Some request.(files_checked);
     arg_relevant_files := Some request.(relevant_files);
     arg_relevant_context := Some request.(relevant_context);
     arg_issues_found := Some request.(issues_found);
     arg_refactor_type := Some request.(refactor_type);
     arg_focus_areas := Some request.(focus_areas);
     arg_style_guide_examples := Some request.(style_guide_examples);
     arg_confidence := Some request.(confidence);
     arg_backtrack_from_step := Some request.(backtrack_from_step) |}.

(** The same arguments with [step] replaced. *)
Definition with_arg_step (v : option string) (a : Arguments) : Arguments :=
  {| arg_step := v;
     arg_step_number := a.(arg_step_number);
     arg_total_steps := a.(arg_total_steps);
     arg_next_step_required := a.(arg_next_step_required);
     arg_findings := a.(arg_findings);
     arg_files_checked := a.(arg_files_checked);
     arg_relevant_files := a.(arg_relevant_files);
     arg_relevant_context := a.(arg_relevant_context);
     arg_issues_found := a.(arg_issues_found);
     arg_refactor_type := a.(arg_refactor_type);
     arg_focus_areas := a.(arg_focus_areas);
     arg_style_guide_examples := a.(arg_style_guide_examples);
     arg_confidence := a.(arg_confidence);
     arg_backtrack_from_step := a.(arg_backtrack_from_step) |}.

(** The same arguments with [issues_found] replaced. *)
Definition with_arg_issues_found (v : option (option (list Issue))) (a : Arguments) : Arguments :=
  {| arg_step := a.(arg_step);
     arg_step_number := a.(arg_step_number);
     arg_total_steps := a.(arg_total_steps);
     arg_next_step_required := a.(arg_next_step_required);
     arg_findings := a.(arg_findings);
     arg_files_checked := a.(arg_files_checked);
     arg_relevant_files := a.(arg_relevant_files);
     arg_relevant_context := a.(arg_relevant_context);
     arg_issues_found := v;
     arg_refactor_type := a.(arg_refactor_type);
     arg_focus_areas := a.(arg_focus_areas);
     arg_style_guide_examples := a.(arg_style_guide_examples);
     arg_confidence := a.(arg_confidence);
     arg_backtrack_from_step := a.(arg_backtrack_from_step) |}.

(** The same request with [focus_areas] replaced. *)
Definition with_focus_areas (v : option (list string)) (request : Request) : Request :=
  {| step := request.(step);
     step_number := request.(step_number);
     total_steps := request.(total_steps);
     next_step_required := request.(next_step_required);
     findings := request.(findings);
     files_checked := request.(files_checked);
     relevant_files := request.(relevant_files);
     relevant_context := request.(relevant_context);
     issues_found := request.(issues_found);
     refactor_type := request.(refactor_type);
     focus_areas := v;
     style_guide_examples := request.(style_guide_examples);
     confidence := request.(confidence);
     backtrack_from_step := request.(backtrack_from_step) |}.

Definition should_embed_files_as_context (request : Request) : bool :=
  if request.(step_number) =? 1 then true
  else if truthy request.(relevant_files) then true
  else if truthy request.(style_guide_examples) then true
  else if py_in request.(refactor_type) ["organization"; "clarity"; "arguments"] then true
  else false.

Definition step_1_actions : list string :=
  [ "Use Read tool to examine the text document(s) specified in relevant_files";
    "Analyze document organization and structure patterns";
    "Identify areas needing refactoring and improvement";
    "Map out potential reorganization strategies" ].

Definition later_step_actions : list string :=
  [ "Continue investigating specific refactoring opportunities identified in previous steps";
    "Use Read tool to examine problematic sections or style examples";
    "Gather concrete evidence for refactoring recommendations";
    "Build comprehensive improvement strategy" ].

Definition get_required_actions (request : Request) : list string :=
  let actions := [] in
  if request.(step_number) =? 1
  then extend actions step_1_actions
  else extend actions later_step_actions.

Definition should_call_expert_analysis (request : Request) : bool :=
  negb (String.eqb request.(confidence) "complete").

Section Context.

Variable str_dict : Issue -> string.

Definition prepare_expert_analysis_context (request : Request) : string :=
  let context_parts :=
    [ "TEXT REFACTORING REQUEST - " ++ upper request.(refactor_type);
      "Refactoring confidence: " ++ request.(confidence);
      "Step " ++ str_int request.(step_number) ++ " of "
        ++ str_int request.(total_steps);
      "";
      "REFACTORING FINDINGS:";
      request.(findings) ] in
  let context_parts :=
    if truthy request.(issues_found)
    then extend context_parts
           ("" :: "REFACTORING OPPORTUNITIES:"
              :: map (fun issue => "- " ++ str_dict issue)
                   (entries request.(issues_found)))
    else context_parts in
  let context_parts :=
    if truthy request.(focus_areas)
    then extend context_parts
           ("" :: "FOCUS AREAS:"
              :: map (fun area => "- " ++ area)
                   (entries request.(focus_areas)))
    else context_parts in
  join nl context_parts.

End Context.

(** The first five parts of the context, joined: what stands before the
    findings. *)
Definition heading (request : Request) : string :=
  join nl
    [ "TEXT REFACTORING REQUEST - " ++ upper request.(refactor_type);
      "Refactoring confidence: " ++ request.(confidence);
      "Step " ++ str_int request.(step_number) ++ " of "
        ++ str_int request.(total_steps);
      "";
      "REFACTORING FINDINGS:" ].

Definition prepare_prompt (request : Request) : string := request.(step).

End TextRefactor.

(** ** tools/textreview.py *)

Module TextReview.

Record Arguments : Type := {
  arg_step : option string;
  arg_step_number : option Z;
  arg_total_steps : option Z;
  arg_next_step_required : option bool;
  arg_findings : option string;
  arg_files_checked : option (option (list string));
  arg_relevant_files : option (option (list string));
  arg_relevant_context : option (option (list string));
  arg_issues_found : option (option (list Issue));
  arg_review_type : option string;
  arg_severity_filter : option string;
  arg_standards : option (option string);
  arg_confidence : option string;
  arg_backtrack_from_step : option (option Z)
}.

(** [class TextReviewRequest(WorkflowRequest)]: a validated request. *)
Record Request : Type := {
  step : string;
  step_number : Z;
  total_steps : Z;
  next_step_required : bool;
  findings : string;
  files_checked : option (list string);
  relevant_files : option (list string);
  relevant_context : option (list string);
  issues_found : option (list Issue);
  review_type : string;
  severity_filter : string;
  standards : option string;
  confidence : string;
  backtrack_from_step : option Z
}.

Definition review_types : list string :=
  ["comprehensive"; "content"; "structure"; "clarity"; "style"].

Definition severity_filters : list string :=
  ["critical"; "high"; "medium"; "low"; "all"].

Definition confidences : list string :=
  ["exploring"; "low"; "medium"; "high"; "very_high"; "almost_certain"; "certain"].

Definition validate (a : Arguments) : V Request :=
  pure Build_Request
    <*> required "step" a.(arg_step)
    <*> required_ge "step_number" 1 a.(arg_step_number)
    <*> required_ge "total_steps" 1 a.(arg_total_steps)
    <*> required "next_step_required" a.(arg_next_step_required)
    <*> required "findings" a.(arg_findings)
    <*> optional_list a.(arg_files_checked)
    <*> optional_list a.(arg_relevant_files)
    <*> optional_list a.(arg_relevant_context)
    <*> optional_list a.(arg_issues_found)
    <*> literal "review_type" review_types "comprehensive" a.(arg_review_type)
    <*> literal "severity_filter" severity_filters "all" a.(arg_severity_filter)
    <*> optional_str a.(arg_standards)
    <*> literal "confidence" confidences "exploring" a.(arg_confidence)
    <*> optional_ge "backtrack_from_step" 1 a.(arg_backtrack_from_step).

(** What every instance of [TextReviewRequest] satisfies. *)
Definition valid (request : Request) : Prop :=
  1 <= request.(step_number) /\
  1 <= request.(total_steps) /\
  py_in request.(review_type) review_types = true /\
  py_in request.(severity_filter) severity_filters = true /\
  py_in request.(confidence) confidences = true /\
  (forall n, request.(backtrack_from_step) = Some n -> 1 <= n).

Definition to_arguments (request : Request) : Arguments :=
  {| arg_step := Some request.(step);
     arg_step_number := Some request.(step_number);
     arg_total_steps := Some request.(total_steps);
     arg_next_step_required := Some request.(next_step_required);
     arg_findings := Some request.(findings);
     arg_files_checked := Some request.(files_checked);
     arg_relevant_files := Some request.(relevant_files);
     arg_relevant_context := Some request.(relevant_context);
     arg_issues_found := Some request.(issues_found);
     arg_review_type := Some request.(review_type);
     arg_severity_filter := Some request.(severity_filter);
     arg_standards := Some request.(standards);
     arg_confidence := Some request.(confidence);
     arg_backtrack_from_step := Some request.(backtrack_from_step) |}.

(** The same arguments with [step] replaced. *)
Definition with_arg_step (v : option string) (a : Arguments) : Arguments :=
  {| arg_step := v;
     arg_step_number := a.(arg_step_number);
     arg_total_steps := a.(arg_total_steps);
     arg_next_step_required := a.(arg_next_step_required);
     arg_findings := a.(arg_findings);
     arg_files_checked := a.(arg_files_checked);
     arg_relevant_files := a.(arg_relevant_files);
     arg_relevant_context := a.(arg_relevant_context);
     arg_issues_found := a.(arg_issues_found);
     arg_review_type := a.(arg_review_type);
     arg_severity_filter := a.(arg_severity_filter);
     arg_standards := a.(arg_standards);
     arg_confidence := a.(arg_confidence);
     arg_backtrack_from_step := a.(arg_backtrack_from_step) |}.

(** The same arguments with [issues_found] replaced. *)
Definition with_arg_issues_found (v : option (option (list Issue))) (a : Arguments) : Arguments :=
  {| arg_step := a.(arg_step);
     arg_step_number := a.(arg_step_number);
     arg_total_steps := a.(arg_total_steps);
     arg_next_step_required := a.(arg_next_step_required);
     arg_findings := a.(arg_findings);
     arg_files_checked := a.(arg_files_checked);
     arg_relevant_files := a.(arg_relevant_files);
     arg_relevant_context := a.(arg_relevant_context);
     arg_issues_found := v;
     arg_review_type := a.(arg_review_type);
     arg_severity_filter := a.(arg_severity_filter);
     arg_standards := a.(arg_standards);
     arg_confidence := a.(arg_confidence);
     arg_backtrack_from_step := a.(arg_backtrack_from_step) |}.

(** The same request with [relevant_context] replaced. *)
Definition with_relevant_context (v : option (list string)) (request : Request) : Request :=
  {| step := request.(step);
     step_number := request.(step_number);
     total_steps := request.(total_steps);
     next_step_required := request.(next_step_required);
     findings := request.(findings);
     files_checked := request.(files_checked);
     relevant_files := request.(relevant_files);
     relevant_context := v;
     issues_found := request.(issues_found);
     review_type := request.(review_type);
     severity_filter := request.(severity_filter);
     standards := request.(standards);
     confidence := request.(confidence);
     backtrack_from_step := request.(backtrack_from_step) |}.

Definition should_embed_files_as_context (request : Request) : bool :=
  if request.(step_number) =? 1 then true
  else if truthy request.(relevant_files) then true
  else if py_in request.(review_type) ["comprehensive"; "content"; "structure"] then true
  else false.

Definition step_1_actions : list string :=
  [ "Use Read tool to examine the text document(s) specified in relevant_files";
    "Assess overall document quality and structure";
    "Identify potential issues and improvement opportunities";
    "Evaluate argument strength and clarity" ].

Definition later_step_actions : list string :=
  [ "Continue investigating specific quality aspects identified in previous steps";
    "Use Read tool to examine problem areas or related sections";
    "Gather concrete evidence for review assessments";
    "Build comprehensive quality evaluation" ].

Definition get_required_actions (request : Request) : list string :=
  let actions := [] in
  if request.(step_number) =? 1
  then extend actions step_1_actions
  else extend actions later_step_actions.

Definition should_call_expert_analysis (request : Request) : bool :=
  negb (String.eqb request.(confidence) "certain").

Section Context.

Variable str_dict : Issue -> string.

Definition prepare_expert_analysis_context (request : Request) : string :=
  let context_parts :=
    [ "TEXT REVIEW REQUEST - " ++ upper request.(review_type);
      "Review confidence: " ++ request.(confidence);
      "Step " ++ str_int request.(step_number) ++ " of "
        ++ str_int request.(total_steps);
      "";
      "REVIEW FINDINGS:";
      request.(findings) ] in
  let context_parts :=
    if truthy request.(issues_found)
    then extend context_parts
           ("" :: "ISSUES IDENTIFIED:"
              :: map (fun issue => "- " ++ str_dict issue)
                   (entries request.(issues_found)))
    else context_parts in
  join nl context_parts.

End Context.

(** The first five parts of the context, joined: what stands before the
    findings. *)
Definition heading (request : Request) : string :=
  join nl
    [ "TEXT REVIEW REQUEST - " ++ upper request.(review_type);
      "Review confidence: " ++ request.(confidence);
      "Step " ++ str_int request.(step_number) ++ " of "
        ++ str_int request.(total_steps);
      "";
      "REVIEW FINDINGS:" ].

Definition prepare_prompt (request : Request) : string := request.(step).

End TextReview.

(** ** Python's [repr] of JSON-like values

    [str(issue)] is [repr(issue)] for a dictionary. The functions below
    compute it for the values of [pyval] whose text has no unprintable
    character beyond ASCII (Python leaves a printable character as it is);
    they are used to run the contexts on examples. *)

Definition single_quote : ascii := ascii_of_nat 39.
Definition double_quote : ascii := ascii_of_nat 34.
Definition backslash : ascii := ascii_of_nat 92.

Fixpoint has_char (c : ascii) (s : string) : bool :=
  match s with
  | EmptyString => false
  | String c' rest => Ascii.eqb c c' || has_char c rest
  end.

Definition hex_digit (n : nat) : ascii :=
  if Nat.ltb n 10 then ascii_of_nat (48 + n) else ascii_of_nat (87 + n).

(** One character inside a string literal delimited by [quote]. *)
Definition repr_char (quote c : ascii) : string :=
  let n := nat_of_ascii c in
  if Ascii.eqb c backslash then String backslash (String backslash EmptyString)
  else if Ascii.eqb c quote then String backslash (String quote EmptyString)
  else if Nat.eqb n 10 then String backslash "n"
  else if Nat.eqb n 13 then String backslash "r"
  else if Nat.eqb n 9 then String backslash "t"
  else if (Nat.ltb n 32 || Nat.eqb n 127)%bool
       then String backslash
              (String "x" (String (hex_digit (Nat.div n 16))
                             (String (hex_digit (Nat.modulo n 16)) EmptyString)))
  else String c EmptyString.

Fixpoint repr_chars (quote : ascii) (s : string) : string :=
  match s with
  | EmptyString => EmptyString
  | String c rest => repr_char quote c ++ repr_chars quote rest
  end.

(** [repr(s)] for a [str]: single quotes, unless the text holds a single
    quote and no double quote. *)
Definition repr_str (s : string) : string :=
  let quote :=
    if (has_char single_quote s && negb (has_char double_quote s))%bool
    then double_quote else single_quote in
  String quote (repr_chars quote s ++ String quote EmptyString).

Fixpoint repr (v : pyval) : string :=
  match v with
  | PyNone => "None"
  | PyBool true => "True"
  | PyBool false => "False"
  | PyInt n => str_int n
  | PyStr s => repr_str s
  | PyList items => "[" ++ join ", " (map repr items) ++ "]"
  | PyDict items =>
      "{" ++ join ", " (map (fun kv => let '(k, x) := kv in
                                       repr_str k ++ ": " ++ repr x) items) ++ "}"
  end.

Definition repr_dict (d : Issue) : string := repr (PyDict d).

(** ** Example calls *)

Module Examples.

(** Analyze, step 1, one relevant file, confidence [exploring]. *)
Definition analyze_step_1 : TextAnalyze.Arguments :=
  {| TextAnalyze.arg_step := Some "Map the structure of the essay";
     TextAnalyze.arg_step_number := Some 1;
     TextAnalyze.arg_total_steps := Some 3;
     TextAnalyze.arg_next_step_required := Some true;
     TextAnalyze.arg_findings := Some "Three sections, no conclusion";
     TextAnalyze.arg_files_checked := None;
     TextAnalyze.arg_relevant_files := Some (Some ["/doc.md"]);
     TextAnalyze.arg_relevant_context := None;
     TextAnalyze.arg_issues_found := None;
     TextAnalyze.arg_analysis_type := None;
     TextAnalyze.arg_output_format := None;
     TextAnalyze.arg_confidence := Some "exploring";
     TextAnalyze.arg_backtrack_from_step := None |}.

Definition weak_thesis : Issue :=
  [("severity", PyStr "high"); ("description", PyStr "Weak thesis")].

Definition long_intro : Issue :=
  [("severity", PyStr "low"); ("type", PyStr "flow");
   ("description", PyStr "The introduction is too long")].

(** An issue whose severity is none of the four words. *)
Definition urgent_issue : Issue :=
  [("severity", PyStr "urgent"); ("description", PyStr "Missing abstract")].

(** An issue without a severity. *)
Definition bare_issue : Issue := [("description", PyStr "Missing abstract")].

(** Analyze, a later step with issues and themes. *)
Definition analyze_step_2 : TextAnalyze.Request :=
  {| TextAnalyze.step := "Check the argument of section 2";
     TextAnalyze.step_number := 2;
     TextAnalyze.total_steps := 3;
     TextAnalyze.next_step_required := true;
     TextAnalyze.findings := "The second section restates the first";
     TextAnalyze.files_checked := Some ["/doc.md"];
     TextAnalyze.relevant_files := Some [];
     TextAnalyze.relevant_context := Some ["progress"; "memory"];
     TextAnalyze.issues_found := Some [weak_thesis; long_intro];
     TextAnalyze.analysis_type := "general";
     TextAnalyze.output_format := "detailed";
     TextAnalyze.confidence := "medium";
     TextAnalyze.backtrack_from_step := None |}.

Definition refactor_step_2 : TextRefactor.Request :=
  {| TextRefactor.step := "Look at the transitions";
     TextRefactor.step_number := 2;
     TextRefactor.total_steps := 4;
     TextRefactor.next_step_required := true;
     TextRefactor.findings := "Sections 2 and 3 overlap";
     TextRefactor.files_checked := Some ["/doc.md"];
     TextRefactor.relevant_files := Some [];
     TextRefactor.relevant_context := Some ["overlap"];
     TextRefactor.issues_found := Some [long_intro];
     TextRefactor.refactor_type := "style";
     TextRefactor.focus_areas := Some ["introduction"; "transitions"];
     TextRefactor.style_guide_examples := Some [];
     TextRefactor.confidence := "partial";
     TextRefactor.backtrack_from_step := None |}.

Definition review_step_2 : TextReview.Request :=
  {| TextReview.step := "Assess the evidence";
     TextReview.step_number := 2;
     TextReview.total_steps := 3;
     TextReview.next_step_required := true;
     TextReview.findings := "Claims are not sourced";
     TextReview.files_checked := Some ["/doc.md"];
     TextReview.relevant_files := Some [];
     TextReview.relevant_context := Some ["motif"];
     TextReview.issues_found := None;
     TextReview.review_type := "clarity";
     TextReview.severity_filter := "all";
     TextReview.standards := None;
     TextReview.confidence := "high";
     TextReview.backtrack_from_step := None |}.

(** Analyze, step 2, no classification and no relevant file. *)
Definition analyze_later_call : TextAnalyze.Arguments :=
  {| TextAnalyze.arg_step := Some "Follow the second argument";
     TextAnalyze.arg_step_number := Some 2;
     TextAnalyze.arg_total_steps := Some 3;
     TextAnalyze.arg_next_step_required := Some true;
     TextAnalyze.arg_findings := Some "The second argument lacks evidence";
     TextAnalyze.arg_files_checked := None;
     TextAnalyze.arg_relevant_files := None;
     TextAnalyze.arg_relevant_context := None;
     TextAnalyze.arg_issues_found := None;
     TextAnalyze.arg_analysis_type := None;
     TextAnalyze.arg_output_format := None;
     TextAnalyze.arg_confidence := None;
     TextAnalyze.arg_backtrack_from_step := None |}.

(** Refactor, step 5, no classification and no relevant file. *)
Definition refactor_later_call : TextRefactor.Arguments :=
  {| TextRefactor.arg_step := Some "Follow the second argument";
     TextRefactor.arg_step_number := Some 5;
     TextRefactor.arg_total_steps := Some 6;
     TextRefactor.arg_next_step_required := Some true;
     TextRefactor.arg_findings := Some "The second argument lacks evidence";
     TextRefactor.arg_files_checked := None;
     TextRefactor.arg_relevant_files := None;
     TextRefactor.arg_relevant_context := None;
     TextRefactor.arg_issues_found := None;
     TextRefactor.arg_refactor_type := None;
     TextRefactor.arg_focus_areas := None;
     TextRefactor.arg_style_guide_examples := None;
     TextRefactor.arg_confidence := None;
     TextRefactor.arg_backtrack_from_step := None |}.

(** Review, step 4, no classification and no relevant file. *)
Definition review_later_call : TextReview.Arguments :=
  {| TextReview.arg_step := Some "Follow the second argument";
     TextReview.arg_step_number := Some 4;
     TextReview.arg_total_steps := Some 4;
     TextReview.arg_next_step_required := Some true;
     TextReview.arg_findings := Some "The second argument lacks evidence";
     TextReview.arg_files_checked := None;
     TextReview.arg_relevant_files := None;
     TextReview.arg_relevant_context := None;
     TextReview.arg_issues_found := None;
     TextReview.arg_review_type := None;
     TextReview.arg_severity_filter := None;
     TextReview.arg_standards := None;
     TextReview.arg_confidence := None;
     TextReview.arg_backtrack_from_step := None |}.

(** Analyze, a call without [findings]. *)
Definition analyze_no_findings : TextAnalyze.Arguments :=
  {| TextAnalyze.arg_step := Some "Follow the second argument";
     TextAnalyze.arg_step_number := Some 2;
     TextAnalyze.arg_total_steps := Some 3;
     TextAnalyze.arg_next_step_required := Some true;
     TextAnalyze.arg_findings := None;
     TextAnalyze.arg_files_checked := None;
     TextAnalyze.arg_relevant_files := None;
     TextAnalyze.arg_relevant_context := None;
     TextAnalyze.arg_issues_found := None;
     TextAnalyze.arg_analysis_type := None;
     TextAnalyze.arg_output_format := None;
     TextAnalyze.arg_confidence := None;
     TextAnalyze.arg_backtrack_from_step := None |}.

(** Refactor, a call whose step number is 0. *)
Definition refactor_step_0 : TextRefactor.Arguments :=
  {| TextRefactor.arg_step := Some "Follow the second argument";
     TextRefactor.arg_step_number := Some 0;
     TextRefactor.arg_total_steps := Some 3;
     TextRefactor.arg_next_step_required := Some true;
     TextRefactor.arg_findings := Some "The second argument lacks evidence";
     TextRefactor.arg_files_checked := None;
     TextRefactor.arg_relevant_files := None;
     TextRefactor.arg_relevant_context := None;
     TextRefactor.arg_issues_found := None;
     TextRefactor.arg_refactor_type := None;
     TextRefactor.arg_focus_areas := None;
     TextRefactor.arg_style_guide_examples := None;
     TextRefactor.arg_confidence := None;
     TextRefactor.arg_backtrack_from_step := None |}.

(** Review, a call whose step number is 0 and that has no [findings]. *)
Definition review_step_0_no_findings : TextReview.Arguments :=
  {| TextReview.arg_step := Some "Follow the second argument";
     TextReview.arg_step_number := Some 0;
     TextReview.arg_total_steps := Some 3;
     TextReview.arg_next_step_required := Some true;
     TextReview.arg_findings := None;
     TextReview.arg_files_checked := None;
     TextReview.arg_relevant_files := None;
     TextReview.arg_relevant_context := None;
     TextReview.arg_issues_found := None;
     TextReview.arg_review_type := None;
     TextReview.arg_severity_filter := None;
     TextReview.arg_standards := None;
     TextReview.arg_confidence := None;
     TextReview.arg_backtrack_from_step := None |}.

(** Analyze, a call whose classification is not a listed word. *)
Definition analyze_unknown_type : TextAnalyze.Arguments :=
  {| TextAnalyze.arg_step := Some "Follow the second argument";
     TextAnalyze.arg_step_number := Some 2;
     TextAnalyze.arg_total_steps := Some 3;
     TextAnalyze.arg_next_step_required := Some true;
     TextAnalyze.arg_findings := Some "The second argument lacks evidence";
     TextAnalyze.arg_files_checked := None;
     TextAnalyze.arg_relevant_files := None;
     TextAnalyze.arg_relevant_context := None;
     TextAnalyze.arg_issues_found := None;
     TextAnalyze.arg_analysis_type := Some "unknown";
     TextAnalyze.arg_output_format := None;
     TextAnalyze.arg_confidence := None;
     TextAnalyze.arg_backtrack_from_step := None |}.

(** Refactor, a call with a confidence of the other two tools. *)
Definition refactor_certain : TextRefactor.Arguments :=
  {| TextRefactor.arg_step := Some "Follow the second argument";
     TextRefactor.arg_step_number := Some 2;
     TextRefactor.arg_total_steps := Some 3;
     TextRefactor.arg_next_step_required := Some true;
     TextRefactor.arg_findings := Some "The second argument lacks evidence";
     TextRefactor.arg_files_checked := None;
     TextRefactor.arg_relevant_files := None;
     TextRefactor.arg_relevant_context := None;
     TextRefactor.arg_issues_found := None;
     TextRefactor.arg_refactor_type := None;
     TextRefactor.arg_focus_areas := None;
     TextRefactor.arg_style_guide_examples := None;
     TextRefactor.arg_confidence := Some "certain";
     TextRefactor.arg_backtrack_from_step := None |}.

(** Analyze, a call whose issues carry an unlisted severity or none. *)
Definition analyze_odd_issues : TextAnalyze.Arguments :=
  {| TextAnalyze.arg_step := Some "Follow the second argument";
     TextAnalyze.arg_step_number := Some 2;
     TextAnalyze.arg_total_steps := Some 3;
     TextAnalyze.arg_next_step_required := Some true;
     TextAnalyze.arg_findings := Some "The second argument lacks evidence";
     TextAnalyze.arg_files_checked := None;
     TextAnalyze.arg_relevant_files := None;
     TextAnalyze.arg_relevant_context := None;
     TextAnalyze.arg_issues_found := Some (Some [urgent_issue; bare_issue]);
     TextAnalyze.arg_analysis_type := None;
     TextAnalyze.arg_output_format := None;
     TextAnalyze.arg_confidence := None;
     TextAnalyze.arg_backtrack_from_step := None |}.

(** Refactor, the same issues. *)
Definition refactor_odd_issues : TextRefactor.Arguments :=
  {| TextRefactor.arg_step := Some "Follow the second argument";
     TextRefactor.arg_step_number := Some 2;
     TextRefactor.arg_total_steps := Some 3;
     TextRefactor.arg_next_step_required := Some true;
     TextRefactor.arg_findings := Some "The second argument lacks evidence";
     TextRefactor.arg_files_checked := None;
     TextRefactor.arg_relevant_files := None;
     TextRefactor.arg_relevant_context := None;
     TextRefactor.arg_issues_found := Some (Some [urgent_issue; bare_issue]);
     TextRefactor.arg_refactor_type := None;
     TextRefactor.arg_focus_areas := None;
     TextRefactor.arg_style_guide_examples := None;
     TextRefactor.arg_confidence := None;
     TextRefactor.arg_backtrack_from_step := None |}.

(** Review, the same issues. *)
Definition review_odd_issues : TextReview.Arguments :=
  {| TextReview.arg_step := Some "Follow the second argument";
     TextReview.arg_step_number := Some 2;
     TextReview.arg_total_steps := Some 3;
     TextReview.arg_next_step_required := Some true;
     TextReview.arg_findings := Some "The second argument lacks evidence";
     TextReview.arg_files_checked := None;
     TextReview.arg_relevant_files := None;
     TextReview.arg_relevant_context := None;
     TextReview.arg_issues_found := Some (Some [urgent_issue; bare_issue]);
     TextReview.arg_review_type := None;
     TextReview.arg_severity_filter := None;
     TextReview.arg_standards := None;
     TextReview.arg_confidence := None;
     TextReview.arg_backtrack_from_step := None |}.

(** Analyze, a call whose [step] is the empty text. *)
Definition analyze_empty_step : TextAnalyze.Arguments :=
  {| TextAnalyze.arg_step := Some "";
     TextAnalyze.arg_step_number := Some 2;
     TextAnalyze.arg_total_steps := Some 3;
     TextAnalyze.arg_next_step_required := Some true;
     TextAnalyze.arg_findings := Some "The second argument lacks evidence";
     TextAnalyze.arg_files_checked := None;
     TextAnalyze.arg_relevant_files := None;
     TextAnalyze.arg_relevant_context := None;
     TextAnalyze.arg_issues_found := None;
     TextAnalyze.arg_analysis_type := None;
     TextAnalyze.arg_output_format := None;
     TextAnalyze.arg_confidence := None;
     TextAnalyze.arg_backtrack_from_step := None |}.

(** Refactor, a call whose [step] is the empty text. *)
Definition refactor_empty_step : TextRefactor.Arguments :=
  {| TextRefactor.arg_step := Some "";
     TextRefactor.arg_step_number := Some 2;
     TextRefactor.arg_total_steps := Some 3;
     TextRefactor.arg_next_step_required := Some true;
     TextRefactor.arg_findings := Some "The second argument lacks evidence";
     TextRefactor.arg_files_checked := None;
     TextRefactor.arg_relevant_files := None;
     TextRefactor.arg_relevant_context := None;
     TextRefactor.arg_issues_found := None;
     TextRefactor.arg_refactor_type := None;
     TextRefactor.arg_focus_areas := None;
     TextRefactor.arg_style_guide_examples := None;
     TextRefactor.arg_confidence := None;
     TextRefactor.arg_backtrack_from_step := None |}.

(** Review, a call whose [step] is the empty text. *)
Definition review_empty_step : TextReview.Arguments :=
  {| TextReview.arg_step := Some "";
     TextReview.arg_step_number := Some 2;
     TextReview.arg_total_steps := Some 3;
     TextReview.arg_next_step_required := Some true;
     TextReview.arg_findings := Some "The second argument lacks evidence";
     TextReview.arg_files_checked := None;
     TextReview.arg_relevant_files := None;
     TextReview.arg_relevant_context := None;
     TextReview.arg_issues_found := None;
     TextReview.arg_review_type := None;
     TextReview.arg_severity_filter := None;
     TextReview.arg_standards := None;
     TextReview.arg_confidence := None;
     TextReview.arg_backtrack_from_step := None |}.

(** Analyze, the later step with one theme written on two lines. *)
Definition analyze_two_line_theme : TextAnalyze.Request :=
  TextAnalyze.with_relevant_context (Some ["first" ++ nl ++ "second"])
    analyze_step_2.

End Examples.


(** ** Notions used to state the validation rules and the layout *)






(** The lines of one optional section: none when the list is [None] or
    empty, else an empty line, the title and one dashed line for each
    entry. *)
Definition section_lines {A : Type} (title : string) (render : A -> string)
  (items : option (list A)) : list string :=
  if truthy items
  then "" :: title :: map (fun x => "- " ++ render x) (entries items)
  else [].

(** * Properties *)

(** ** Text *)

Lemma append_assoc (a b c : string) : (a ++ b) ++ c = a ++ (b ++ c).
Proof.
  induction a as [|x a IH]; simpl.
  - reflexivity.
  - now rewrite IH.
Qed.

Lemma append_empty_r (a : string) : a ++ "" = a.
Proof.
  induction a as [|x a IH]; simpl; [reflexivity | now rewrite IH].
Qed.

Lemma join_cons2 (sep x y : string) (rest : list string) :
  join sep (x :: y :: rest) = x ++ sep ++ join sep (y :: rest).
Proof. reflexivity. Qed.

(** Joining a list extended with further parts: the separator stands between
    the two joined halves. *)
Lemma join_extend (sep : string) (parts more : list string) :
  parts <> [] -> more <> [] ->
  join sep (extend parts more) = join sep parts ++ sep ++ join sep more.
Proof.
  intros Hp Hm. unfold extend.
  induction parts as [|x parts IH]; [congruence|].
  destruct parts as [|y parts].
  - destruct more as [|m more]; [congruence|]. reflexivity.
  - change (((x :: y :: parts) ++ more)%list)
      with (x :: y :: (parts ++ more)%list).
    rewrite !join_cons2.
    change (y :: (parts ++ more)%list) with (((y :: parts) ++ more)%list).
    rewrite IH by discriminate.
    now rewrite !append_assoc.
Qed.

(** A title followed by dashed entries, joined by line feeds. *)
Lemma join_title_bullets {A : Type} (render : A -> string) (title : string)
  (items : list A) :
  join nl (title :: map (fun x => "- " ++ render x) items)
  = title ++ bullet_lines (map render items).
Proof.
  revert title.
  induction items as [|x items IH]; intros title.
  - simpl. now rewrite append_empty_r.
  - change (map (fun x0 => "- " ++ render x0) (x :: items))
      with (("- " ++ render x) :: map (fun x0 => "- " ++ render x0) items).
    rewrite join_cons2, IH.
    change (bullet_lines (map render (x :: items)))
      with (nl ++ "- " ++ render x ++ bullet_lines (map render items)).
    now rewrite !append_assoc.
Qed.

(** What [extend] with a section adds to the joined text. *)
Lemma join_extend_section {A : Type} (render : A -> string)
  (parts : list string) (title : string) (items : list A) :
  parts <> [] ->
  join nl (extend parts ("" :: title :: map (fun x => "- " ++ render x) items))
  = join nl parts ++ section_text title (map render items).
Proof.
  intros Hp.
  rewrite join_extend by (assumption || discriminate).
  rewrite join_cons2, join_title_bullets.
  reflexivity.
Qed.

Lemma lines_from_app (cur a b : string) :
  lines_from cur (a ++ nl ++ b) = (lines_from cur a ++ lines b)%list.
Proof.
  revert cur.
  induction a as [|c a IH]; intros cur; simpl.
  - reflexivity.
  - destruct (Ascii.eqb c (ascii_of_nat 10)); simpl; now rewrite IH.
Qed.

(** The lines of two texts separated by a line feed. *)
Lemma lines_app (a b : string) :
  lines (a ++ nl ++ b) = (lines a ++ lines b)%list.
Proof. apply lines_from_app. Qed.

Lemma lines_from_single_line (cur s : string) :
  single_line s = true -> lines_from cur s = [cur ++ s].
Proof.
  revert cur.
  induction s as [|c s IH]; intros cur H; simpl in *.
  - now rewrite append_empty_r.
  - apply andb_true_iff in H as [Hc Hs].
    apply negb_true_iff in Hc. rewrite Hc.
    rewrite IH by assumption.
    now rewrite append_assoc.
Qed.

(** A text without a line feed is one line. *)
Lemma lines_single_line (s : string) :
  single_line s = true -> lines s = [s].
Proof. intros H. unfold lines. now rewrite lines_from_single_line. Qed.

Lemma single_line_app (a b : string) :
  single_line (a ++ b) = (single_line a && single_line b)%bool.
Proof.
  induction a as [|c a IH]; simpl.
  - reflexivity.
  - now rewrite IH, andb_assoc.
Qed.

(** The lines of a title followed by entries that hold no line feed: the
    title, then one dashed line for each entry, in order. *)
Lemma lines_title_bullets (title : string) (items : list string) :
  single_line title = true ->
  forallb single_line items = true ->
  lines (title ++ bullet_lines items) = title :: map (fun x => "- " ++ x) items.
Proof.
  revert title.
  induction items as [|x items IH]; intros title Ht Hi.
  - simpl. rewrite append_empty_r. now apply lines_single_line.
  - simpl in Hi. apply andb_true_iff in Hi as [Hx Hi].
    change (bullet_lines (x :: items))
      with (nl ++ (("- " ++ x) ++ bullet_lines items)).
    rewrite lines_app, lines_single_line by assumption.
    rewrite IH; [reflexivity| |assumption].
    rewrite single_line_app. now rewrite Hx.
Qed.

(** The lines of a text followed by a section. *)
Lemma lines_section (text title : string) (items : list string) :
  single_line title = true ->
  forallb single_line items = true ->
  lines (text ++ section_text title items)
  = (lines text ++ "" :: title :: map (fun x => ("- " ++ x)%string) items)%list.
Proof.
  intros Ht Hi. unfold section_text.
  rewrite lines_app.
  change (nl ++ title ++ bullet_lines items)
    with ("" ++ nl ++ (title ++ bullet_lines items)).
  rewrite lines_app, lines_title_bullets by assumption.
  reflexivity.
Qed.

Lemma prefix_app (needle rest : string) : String.prefix needle (needle ++ rest) = true.
Proof.
  induction needle as [|c needle IH]; simpl.
  - now destruct rest.
  - destruct (ascii_dec c c); [assumption | congruence].
Qed.

Lemma prefix_inv (needle text : string) :
  String.prefix needle text = true -> exists rest, text = needle ++ rest.
Proof.
  revert text.
  induction needle as [|c needle IH]; intros text H.
  - now exists text.
  - destruct text as [|d text]; simpl in H; [discriminate|].
    destruct (ascii_dec c d) as [->|]; [|discriminate].
    destruct (IH _ H) as [rest ->]. now exists rest.
Qed.

Lemma occurs_in_unfold (needle text : string) :
  occurs_in needle text
  = if String.prefix needle text then true
    else match text with
         | EmptyString => false
         | String _ rest => occurs_in needle rest
         end.
Proof. now destruct text. Qed.

(** [occurs_in] decides that the needle is a contiguous part of the text. *)
Lemma occurs_in_spec (needle text : string) :
  occurs_in needle text = true <-> exists a b, text = a ++ needle ++ b.
Proof.
  split.
  - induction text as [|c text IH]; rewrite occurs_in_unfold; intros H.
    + destruct (String.prefix needle "") eqn:E; [|discriminate].
      destruct (prefix_inv _ _ E) as [rest ->]. now exists "", rest.
    + destruct (String.prefix needle (String c text)) eqn:E.
      * destruct (prefix_inv _ _ E) as [rest ->]. now exists "", rest.
      * destruct (IH H) as (a & b & ->). now exists (String c a), b.
  - intros (a & b & ->).
    induction a as [|c a IH]; rewrite occurs_in_unfold.
    + change ("" ++ needle ++ b) with (needle ++ b).
      now rewrite prefix_app.
    + change (String c a ++ needle ++ b) with (String c (a ++ needle ++ b)).
      destruct (String.prefix needle (String c (a ++ needle ++ b)));
        [reflexivity | exact IH].
Qed.

(** ** Validation *)

Lemma errors_ap {A B : Type} (f : V (A -> B)) (x : V A) :
  errors (f <*> x) = (errors f ++ errors x)%list.
Proof.
  destruct f as [e1|g], x as [e2|a]; simpl; auto using app_nil_r.
Qed.

Lemma ap_inr {A B : Type} (f : V (A -> B)) (x : V A) (b : B) :
  f <*> x = inr b -> exists g a, f = inr g /\ x = inr a /\ b = g a.
Proof.
  destruct f as [e1|g], x as [e2|a]; simpl; intros H; try discriminate.
  injection H as <-. now exists g, a.
Qed.

(** An outcome with an error line is a rejection that carries this line. *)
Lemma rejected_with {A : Type} (v : V A) (e : ErrorDetails) :
  In e (errors v) -> exists es, v = inl es /\ In e es.
Proof.
  destruct v as [es|a]; simpl; intros H; [|contradiction].
  now exists es.
Qed.

(** Code sequenced after a rejected validation is not run. *)
Lemma bind_rejected {A B : Type} (v : V A) (es : list ErrorDetails)
  (k : A -> V B) :
  v = inl es -> bind v k = inl es.
Proof. now intros ->. Qed.

Lemma definite_pure {A : Type} (a : A) : definite (pure a).
Proof. exact I. Qed.

Lemma definite_ap {A B : Type} (f : V (A -> B)) (x : V A) :
  definite f -> definite x -> definite (f <*> x).
Proof.
  destruct f as [e1|g], x as [e2|a]; simpl; try tauto.
  intros H1 _ H. apply app_eq_nil in H. tauto.
Qed.

Lemma definite_required {A : Type} (name : string) (v : option A) :
  definite (required name v).
Proof. destruct v; simpl; [exact I | discriminate]. Qed.

Lemma definite_required_ge (name : string) (lo : Z) (v : option Z) :
  definite (required_ge name lo v).
Proof.
  destruct v as [n|]; simpl; [|discriminate].
  destruct (lo <=? n); simpl; [exact I | discriminate].
Qed.

Lemma definite_optional_ge (name : string) (lo : Z) (v : option (option Z)) :
  definite (optional_ge name lo v).
Proof.
  destruct v as [[n|]|]; simpl; try exact I.
  destruct (lo <=? n); simpl; [exact I | discriminate].
Qed.

Lemma definite_optional_list {A : Type} (v : option (option (list A))) :
  definite (optional_list v).
Proof. now destruct v. Qed.

Lemma definite_optional_str (v : option (option string)) :
  definite (optional_str v).
Proof. now destruct v. Qed.

Lemma definite_literal (name : string) (words : list string) (d : string)
  (v : option string) :
  definite (literal name words d v).
Proof.
  destruct v as [s|]; simpl; [|exact I].
  destruct (py_in s words); simpl; [exact I | discriminate].
Qed.

Create HintDb validation.

#[local] Hint Resolve definite_pure definite_ap definite_required
  definite_required_ge definite_optional_ge definite_optional_list
  definite_optional_str definite_literal : validation.

(** What an accepted field tells about the argument. *)

Lemma required_inr {A : Type} (name : string) (v : option A) (x : A) :
  required name v = inr x -> v = Some x.
Proof. destruct v; simpl; congruence. Qed.

Lemma required_ge_inr (name : string) (lo : Z) (v : option Z) (x : Z) :
  required_ge name lo v = inr x -> v = Some x /\ lo <= x.
Proof.
  destruct v as [n|]; simpl; [|discriminate].
  destruct (lo <=? n) eqn:E; [|discriminate].
  intros H. injection H as <-. split; [reflexivity | lia].
Qed.

Lemma optional_ge_inr (name : string) (lo : Z) (v : option (option Z))
  (x : option Z) :
  optional_ge name lo v = inr x ->
  (v = None /\ x = None) \/ (v = Some x /\ forall n, x = Some n -> lo <= n).
Proof.
  destruct v as [[n|]|]; simpl.
  - destruct (lo <=? n) eqn:E; [|discriminate].
    intros H. injection H as <-. right. split; [reflexivity|].
    intros m Hm. injection Hm as <-. lia.
  - intros H. injection H as <-. right. split; [reflexivity | discriminate].
  - intros H. injection H as <-. now left.
Qed.

Lemma optional_list_inr {A : Type} (v : option (option (list A)))
  (x : option (list A)) :
  optional_list v = inr x -> (v = None /\ x = Some []) \/ v = Some x.
Proof.
  destruct v as [given|]; simpl; intros H; injection H as <-; auto.
Qed.

Lemma literal_inr (name : string) (words : list string) (d : string)
  (v : option string) (x : string) :
  literal name words d v = inr x ->
  (v = None /\ x = d) \/ (v = Some x /\ py_in x words = true).
Proof.
  destruct v as [s|]; simpl.
  - destruct (py_in s words) eqn:E; [|discriminate].
    intros H. injection H as <-. now right.
  - intros H. injection H as <-. now left.
Qed.

(** What a refused field puts in the error lines. *)

Lemma required_missing {A : Type} (name : string) :
  @required A name None = inl [ {| loc := name; kind := missing |} ].
Proof. reflexivity. Qed.

Lemma required_ge_below (name : string) (lo n : Z) :
  n < lo ->
  required_ge name lo (Some n)
  = inl [ {| loc := name; kind := greater_than_equal lo |} ].
Proof.
  intros H. unfold required_ge.
  destruct (lo <=? n) eqn:E; [lia | reflexivity].
Qed.

Lemma literal_outside (name : string) (words : list string) (d s : string) :
  py_in s words = false ->
  literal name words d (Some s)
  = inl [ {| loc := name; kind := literal_error words |} ].
Proof. intros H. unfold literal. now rewrite H. Qed.

Lemma py_in_In (x : string) (words : list string) :
  py_in x words = true <-> In x words.
Proof.
  unfold py_in. rewrite existsb_exists. split.
  - intros (w & Hw & E). apply String.eqb_eq in E. now subst.
  - intros H. exists x. split; [assumption | apply String.eqb_refl].
Qed.

(** Splitting an accepted [validate] into its accepted fields. *)
Ltac split_fields H :=
  repeat (let g := fresh "g" in
          let x := fresh "x" in
          let Hx := fresh "Hx" in
          apply ap_inr in H; destruct H as (g & x & H & Hx & ->));
  unfold pure in H; injection H as <-.

(** An error line of one field is an error line of the record. *)
Ltac field_error :=
  repeat rewrite errors_ap; repeat rewrite in_app_iff; simpl;
  intuition auto.

Ltac read_fields :=
  repeat match goal with
    | H : required _ _ = inr _ |- _ => apply required_inr in H
    | H : required_ge _ _ _ = inr _ |- _ =>
        let Hge := fresh "Hge" in
        apply required_ge_inr in H; destruct H as [H Hge]
    | H : optional_ge _ _ _ = inr _ |- _ => apply optional_ge_inr in H
    | H : optional_list _ = inr _ |- _ => apply optional_list_inr in H
    | H : literal _ _ _ _ = inr _ |- _ => apply literal_inr in H
    end.

Lemma required_ge_ok (name : string) (lo n : Z) :
  lo <= n -> required_ge name lo (Some n) = inr n.
Proof.
  intros H. unfold required_ge.
  destruct (lo <=? n) eqn:E; [reflexivity | lia].
Qed.

Lemma optional_ge_ok (name : string) (lo : Z) (x : option Z) :
  (forall n, x = Some n -> lo <= n) -> optional_ge name lo (Some x) = inr x.
Proof.
  intros H. destruct x as [n|]; simpl; [|reflexivity].
  specialize (H n eq_refl).
  destruct (lo <=? n) eqn:E; [reflexivity | lia].
Qed.

Lemma literal_ok (name : string) (words : list string) (d s : string) :
  py_in s words = true -> literal name words d (Some s) = inr s.
Proof. intros H. unfold literal. now rewrite H. Qed.

(** A word accepted for a [Literal] field is a listed word or the default. *)
Ltac literal_word :=
  match goal with
  | H : (_ = None /\ _ = _) \/ (_ = Some _ /\ py_in _ _ = true) |- py_in _ _ = true =>
      destruct H as [[_ ->]|[_ H]]; [reflexivity | exact H]
  end.

(** *** Every accepted request is valid *)

Lemma analyze_validate_valid (a : TextAnalyze.Arguments) (r : TextAnalyze.Request) :
  TextAnalyze.validate a = inr r -> TextAnalyze.valid r.
Proof.
  intros H. unfold TextAnalyze.validate in H. split_fields H. read_fields.
  unfold TextAnalyze.valid; simpl.
  repeat split; try assumption; try literal_word.
  intros n Hn. destruct Hx as [[_ ->]|[_ Hx]]; [discriminate | now apply Hx].
Qed.

Lemma refactor_validate_valid (a : TextRefactor.Arguments) (r : TextRefactor.Request) :
  TextRefactor.validate a = inr r -> TextRefactor.valid r.
Proof.
  intros H. unfold TextRefactor.validate in H. split_fields H. read_fields.
  unfold TextRefactor.valid; simpl.
  repeat split; try assumption; try literal_word.
  intros n Hn. destruct Hx as [[_ ->]|[_ Hx]]; [discriminate | now apply Hx].
Qed.

Lemma review_validate_valid (a : TextReview.Arguments) (r : TextReview.Request) :
  TextReview.validate a = inr r -> TextReview.valid r.
Proof.
  intros H. unfold TextReview.validate in H. split_fields H. read_fields.
  unfold TextReview.valid; simpl.
  repeat split; try assumption; try literal_word.
  intros n Hn. destruct Hx as [[_ ->]|[_ Hx]]; [discriminate | now apply Hx].
Qed.

(** *** Every valid request is accepted when its fields are submitted *)

Lemma analyze_validate_to_arguments (r : TextAnalyze.Request) :
  TextAnalyze.valid r -> TextAnalyze.validate (TextAnalyze.to_arguments r) = inr r.
Proof.
  destruct r. unfold TextAnalyze.valid; simpl.
  intros (H1 & H2 & H3 & H4 & H5 & H6).
  unfold TextAnalyze.validate, TextAnalyze.to_arguments;
    cbn -[required_ge literal optional_ge].
  rewrite !required_ge_ok, !literal_ok, optional_ge_ok by assumption.
  reflexivity.
Qed.

Lemma refactor_validate_to_arguments (r : TextRefactor.Request) :
  TextRefactor.valid r -> TextRefactor.validate (TextRefactor.to_arguments r) = inr r.
Proof.
  destruct r. unfold TextRefactor.valid; simpl.
  intros (H1 & H2 & H3 & H4 & H5).
  unfold TextRefactor.validate, TextRefactor.to_arguments;
    cbn -[required_ge literal optional_ge].
  rewrite !required_ge_ok, !literal_ok, optional_ge_ok by assumption.
  reflexivity.
Qed.

Lemma review_validate_to_arguments (r : TextReview.Request) :
  TextReview.valid r -> TextReview.validate (TextReview.to_arguments r) = inr r.
Proof.
  destruct r. unfold TextReview.valid; simpl.
  intros (H1 & H2 & H3 & H4 & H5 & H6).
  unfold TextReview.validate, TextReview.to_arguments;
    cbn -[required_ge literal optional_ge].
  rewrite !required_ge_ok, !literal_ok, optional_ge_ok by assumption.
  reflexivity.
Qed.

(** *** Validation accepts, or rejects with at least one error line *)

Lemma analyze_validate_definite (a : TextAnalyze.Arguments) :
  definite (TextAnalyze.validate a).
Proof. unfold TextAnalyze.validate. auto 20 with validation. Qed.

Lemma refactor_validate_definite (a : TextRefactor.Arguments) :
  definite (TextRefactor.validate a).
Proof. unfold TextRefactor.validate. auto 20 with validation. Qed.

Lemma review_validate_definite (a : TextReview.Arguments) :
  definite (TextReview.validate a).
Proof. unfold TextReview.validate. auto 20 with validation. Qed.

(** Validation has exactly two outcomes: a request that satisfies every
    constraint, or a rejection that names at least one field. *)
Lemma all_or_nothing {Request : Type} (v : V Request) :
  definite v ->
  (exists r, v = inr r /\ errors v = []) \/
  (exists es, v = inl es /\ es <> [] /\ forall r, v <> inr r).
Proof.
  destruct v as [es|r]; simpl; intros H.
  - right. exists es. repeat split; [assumption | discriminate].
  - left. now exists r.
Qed.

(** ** Step decisions *)

Lemma truthy_non_empty {A : Type} (v : option (list A)) :
  truthy v = true <-> non_empty v.
Proof.
  unfold non_empty. split.
  - destruct v as [[|x rest]|]; simpl; try discriminate. now exists x, rest.
  - now intros (x & rest & ->).
Qed.

Lemma eqb_false_neq (a b : string) : negb (String.eqb a b) = true <-> a <> b.
Proof. rewrite negb_true_iff. apply String.eqb_neq. Qed.

(** C1. In each tool, expert analysis is called exactly when the confidence
    of the request is not the last word of the tool's confidence scale:
    ["certain"] for textanalyze and textreview, ["complete"] for
    textrefactor. Two requests with the same confidence get the same
    answer, whatever their other fields hold. *)
Theorem expert_analysis_unless_terminal_confidence :
  (forall r, TextAnalyze.should_call_expert_analysis r = true
             <-> TextAnalyze.confidence r <> "certain") /\
  (forall r, TextReview.should_call_expert_analysis r = true
             <-> TextReview.confidence r <> "certain") /\
  (forall r, TextRefactor.should_call_expert_analysis r = true
             <-> TextRefactor.confidence r <> "complete") /\
  (forall r r', TextAnalyze.confidence r = TextAnalyze.confidence r' ->
                TextAnalyze.should_call_expert_analysis r
                = TextAnalyze.should_call_expert_analysis r') /\
  (forall r r', TextReview.confidence r = TextReview.confidence r' ->
                TextReview.should_call_expert_analysis r
                = TextReview.should_call_expert_analysis r') /\
  (forall r r', TextRefactor.confidence r = TextRefactor.confidence r' ->
                TextRefactor.should_call_expert_analysis r
                = TextRefactor.should_call_expert_analysis r').
Proof.
  unfold TextAnalyze.should_call_expert_analysis,
    TextReview.should_call_expert_analysis,
    TextRefactor.should_call_expert_analysis.
  repeat split; intros; try (apply eqb_false_neq; assumption);
    try congruence.
Qed.

Lemma expert_analysis_unless_terminal_confidence_witness :
  TextAnalyze.should_call_expert_analysis Examples.analyze_step_2 = true /\
  TextReview.should_call_expert_analysis Examples.review_step_2 = true /\
  TextRefactor.should_call_expert_analysis Examples.refactor_step_2 = true.
Proof.
  destruct expert_analysis_unless_terminal_confidence
    as (Ha & Hv & Hf & _).
  split; [|split].
  - apply (proj2 (Ha Examples.analyze_step_2)). simpl. discriminate.
  - apply (proj2 (Hv Examples.review_step_2)). simpl. discriminate.
  - apply (proj2 (Hf Examples.refactor_step_2)). simpl. discriminate.
Defined.

(** The three tests of [should_embed_files_as_context], case by case. *)
Ltac embed_cases :=
  rewrite <- ?truthy_non_empty, <- ?py_in_In;
  repeat match goal with
    | |- context [Z.eqb ?a ?b] => destruct (Z.eqb_spec a b)
    | |- context [truthy ?x] => destruct (truthy x)
    | |- context [py_in ?x ?l] => destruct (py_in x l)
    end;
  intuition discriminate.

(** C2. In each tool, files are embedded exactly when the step is the
    first one, or [relevant_files] holds an entry, or the classification is
    one of the tool's three content-heavy words, or, for textrefactor only,
    [style_guide_examples] holds an entry. *)
Theorem embed_files_iff :
  (forall r, TextAnalyze.should_embed_files_as_context r = true
             <-> TextAnalyze.step_number r = 1
                 \/ non_empty (TextAnalyze.relevant_files r)
                 \/ In (TextAnalyze.analysis_type r)
                      ["structure"; "themes"; "arguments"]) /\
  (forall r, TextRefactor.should_embed_files_as_context r = true
             <-> TextRefactor.step_number r = 1
                 \/ non_empty (TextRefactor.relevant_files r)
                 \/ In (TextRefactor.refactor_type r)
                      ["organization"; "clarity"; "arguments"]
                 \/ non_empty (TextRefactor.style_guide_examples r)) /\
  (forall r, TextReview.should_embed_files_as_context r = true
             <-> TextReview.step_number r = 1
                 \/ non_empty (TextReview.relevant_files r)
                 \/ In (TextReview.review_type r)
                      ["comprehensive"; "content"; "structure"]).
Proof.
  split; [|split]; intros r.
  - unfold TextAnalyze.should_embed_files_as_context. embed_cases.
  - unfold TextRefactor.should_embed_files_as_context. embed_cases.
  - unfold TextReview.should_embed_files_as_context. embed_cases.
Qed.

(** C7. In each tool the required actions are one of two fixed lists of four
    instructions, chosen by the step number alone: the step-1 list when
    [step_number] is 1, the later-step list when it is greater than 1; a
    valid request is in one of the two cases, and two requests with the same
    step number get the same list. *)
Theorem required_actions_by_step_number :
  ((forall r, TextAnalyze.step_number r = 1 ->
      TextAnalyze.get_required_actions r = TextAnalyze.step_1_actions) /\
   (forall r, 1 < TextAnalyze.step_number r ->
      TextAnalyze.get_required_actions r = TextAnalyze.later_step_actions) /\
   (forall r, TextAnalyze.valid r ->
      TextAnalyze.step_number r = 1 \/ 1 < TextAnalyze.step_number r) /\
   (forall r r', TextAnalyze.step_number r = TextAnalyze.step_number r' ->
      TextAnalyze.get_required_actions r = TextAnalyze.get_required_actions r') /\
   length TextAnalyze.step_1_actions = 4%nat /\
   length TextAnalyze.later_step_actions = 4%nat) /\
  ((forall r, TextRefactor.step_number r = 1 ->
      TextRefactor.get_required_actions r = TextRefactor.step_1_actions) /\
   (forall r, 1 < TextRefactor.step_number r ->
      TextRefactor.get_required_actions r = TextRefactor.later_step_actions) /\
   (forall r, TextRefactor.valid r ->
      TextRefactor.step_number r = 1 \/ 1 < TextRefactor.step_number r) /\
   (forall r r', TextRefactor.step_number r = TextRefactor.step_number r' ->
      TextRefactor.get_required_actions r = TextRefactor.get_required_actions r') /\
   length TextRefactor.step_1_actions = 4%nat /\
   length TextRefactor.later_step_actions = 4%nat) /\
  ((forall r, TextReview.step_number r = 1 ->
      TextReview.get_required_actions r = TextReview.step_1_actions) /\
   (forall r, 1 < TextReview.step_number r ->
      TextReview.get_required_actions r = TextReview.later_step_actions) /\
   (forall r, TextReview.valid r ->
      TextReview.step_number r = 1 \/ 1 < TextReview.step_number r) /\
   (forall r r', TextReview.step_number r = TextReview.step_number r' ->
      TextReview.get_required_actions r = TextReview.get_required_actions r') /\
   length TextReview.step_1_actions = 4%nat /\
   length TextReview.later_step_actions = 4%nat).
Proof.
  unfold TextAnalyze.get_required_actions, TextRefactor.get_required_actions,
    TextReview.get_required_actions, TextAnalyze.valid, TextRefactor.valid,
    TextReview.valid, extend.
  repeat match goal with |- _ /\ _ => split end;
    try reflexivity; intros r.
  all: try (intros ->; reflexivity).
  all: try (intros H; destruct (Z.eqb_spec (TextAnalyze.step_number r) 1);
            [lia | reflexivity]).
  all: try (intros H; destruct (Z.eqb_spec (TextRefactor.step_number r) 1);
            [lia | reflexivity]).
  all: try (intros H; destruct (Z.eqb_spec (TextReview.step_number r) 1);
            [lia | reflexivity]).
  all: try (intros (H & _); lia).
  all: intros r' ->; reflexivity.
Qed.

(** The first call of an analysis: one relevant file, confidence
    ["exploring"], step 1. Files are embedded, expert analysis is to be
    called, and the actions are the four step-1 instructions. *)
Lemma required_actions_by_step_number_witness :
  exists r,
    TextAnalyze.validate Examples.analyze_step_1 = inr r /\
    TextAnalyze.should_embed_files_as_context r = true /\
    TextAnalyze.should_call_expert_analysis r = true /\
    TextAnalyze.get_required_actions r
    = [ "Use Read tool to examine the text document(s) specified in relevant_files";
        "Understand the document structure and main content areas";
        "Identify key themes, arguments, and organizational patterns";
        "Map out the text structure and content flow" ] /\
    TextRefactor.get_required_actions Examples.refactor_step_2
    = TextRefactor.later_step_actions /\
    TextReview.get_required_actions Examples.review_step_2
    = TextReview.later_step_actions.
Proof.
  destruct required_actions_by_step_number
    as ((Ha1 & _) & (_ & Hf2 & _) & (_ & Hv2 & _)).
  eexists. split; [reflexivity|].
  split; [reflexivity|]. split; [reflexivity|].
  split; [|split].
  - apply Ha1. reflexivity.
  - apply Hf2. simpl. lia.
  - apply Hv2. simpl. lia.
Defined.

(** A [Literal] field that was left out holds its default. *)
Ltac default_word :=
  match goal with
  | H : literal _ _ _ None = inr _ |- _ => simpl in H; injection H as <-
  end.

(** C10. When the classification is left out of a call, textrefactor takes
    ["organization"] and textreview takes ["comprehensive"], and both embed
    files at every step; textanalyze takes ["general"], and then does not
    embed files at a step after the first one when [relevant_files] holds no
    entry. *)
Theorem omitted_classification_default :
  (forall a r, TextRefactor.arg_refactor_type a = None ->
     TextRefactor.validate a = inr r ->
     TextRefactor.refactor_type r = "organization" /\
     TextRefactor.should_embed_files_as_context r = true) /\
  (forall a r, TextReview.arg_review_type a = None ->
     TextReview.validate a = inr r ->
     TextReview.review_type r = "comprehensive" /\
     TextReview.should_embed_files_as_context r = true) /\
  (forall a r, TextAnalyze.arg_analysis_type a = None ->
     TextAnalyze.validate a = inr r ->
     TextAnalyze.analysis_type r = "general" /\
     (1 < TextAnalyze.step_number r ->
      ~ non_empty (TextAnalyze.relevant_files r) ->
      TextAnalyze.should_embed_files_as_context r = false)).
Proof.
  split; [|split]; intros a r Hnone H.
  - unfold TextRefactor.validate in H. rewrite Hnone in H.
    split_fields H. default_word.
    split; [reflexivity|].
    unfold TextRefactor.should_embed_files_as_context; simpl.
    repeat match goal with
      | |- context [Z.eqb ?n 1] => destruct (Z.eqb n 1)
      | |- context [truthy ?v] => destruct (truthy v)
      end; reflexivity.
  - unfold TextReview.validate in H. rewrite Hnone in H.
    split_fields H. default_word.
    split; [reflexivity|].
    unfold TextReview.should_embed_files_as_context; simpl.
    repeat match goal with
      | |- context [Z.eqb ?n 1] => destruct (Z.eqb n 1)
      | |- context [truthy ?v] => destruct (truthy v)
      end; reflexivity.
  - unfold TextAnalyze.validate in H. rewrite Hnone in H.
    split_fields H. default_word.
    split; [reflexivity|].
    unfold TextAnalyze.should_embed_files_as_context; simpl.
    intros Hstep Hfiles.
    match goal with
    | |- context [Z.eqb ?n 1] => destruct (Z.eqb_spec n 1); [lia|]
    end.
    match goal with
    | |- context [truthy ?v] => destruct (truthy v) eqn:E; [|reflexivity]
    end.
    apply truthy_non_empty in E. contradiction.
Qed.

(** ** Rejections *)

Lemma rejected_at_intro {A : Type} (v : V A) (field : string)
  (failure : ErrorKind) :
  In {| loc := field; kind := failure |} (errors v) ->
  rejected_at v field failure.
Proof.
  intros H. destruct (rejected_with _ _ H) as (es & -> & Hin).
  exists es. repeat split; trivial.
Qed.

(** A rejection is never also an acceptance. *)
Lemma rejected_at_not_accepted {A : Type} (v : V A) (field : string)
  (failure : ErrorKind) (a : A) :
  rejected_at v field failure -> v <> inr a.
Proof. intros (es & -> & _). discriminate. Qed.

Lemma errors_optional_list {A : Type} (v : option (option (list A))) :
  errors (optional_list v) = [].
Proof. now destruct v. Qed.

Lemma errors_required_some {A : Type} (name : string) (x : A) :
  errors (required name (Some x)) = [].
Proof. reflexivity. Qed.

Lemma is_valid_errors {A : Type} (v : V A) :
  definite v -> is_valid v = match errors v with [] => true | _ => false end.
Proof.
  destruct v as [[|e es]|a]; simpl; intros H; congruence.
Qed.

(** The error lines of a record are those of its fields, in order. *)
Ltac errors_by_field :=
  unfold TextAnalyze.validate, TextRefactor.validate, TextReview.validate;
  repeat rewrite errors_ap.

(** C3. In each tool, a call without [findings] is rejected with the line
    ([findings], missing), and a call whose [step_number] is 0 is rejected
    with the line ([step_number], greater_than_equal 1); what follows the
    validation is not run on a rejected call. Validation has two outcomes
    only: a request that meets every constraint, or a rejection with at
    least one line and no request. *)
Theorem invalid_calls_are_rejected :
  ((forall a, TextAnalyze.arg_findings a = None ->
      rejected_at (TextAnalyze.validate a) "findings" missing) /\
   (forall a, TextAnalyze.arg_step_number a = Some 0 ->
      rejected_at (TextAnalyze.validate a) "step_number" (greater_than_equal 1)) /\
   (forall a, (exists r, TextAnalyze.validate a = inr r /\ TextAnalyze.valid r) \/
              (exists es, TextAnalyze.validate a = inl es /\ es <> []))) /\
  ((forall a, TextRefactor.arg_findings a = None ->
      rejected_at (TextRefactor.validate a) "findings" missing) /\
   (forall a, TextRefactor.arg_step_number a = Some 0 ->
      rejected_at (TextRefactor.validate a) "step_number" (greater_than_equal 1)) /\
   (forall a, (exists r, TextRefactor.validate a = inr r /\ TextRefactor.valid r) \/
              (exists es, TextRefactor.validate a = inl es /\ es <> []))) /\
  ((forall a, TextReview.arg_findings a = None ->
      rejected_at (TextReview.validate a) "findings" missing) /\
   (forall a, TextReview.arg_step_number a = Some 0 ->
      rejected_at (TextReview.validate a) "step_number" (greater_than_equal 1)) /\
   (forall a, (exists r, TextReview.validate a = inr r /\ TextReview.valid r) \/
              (exists es, TextReview.validate a = inl es /\ es <> []))).
Proof.
  repeat match goal with |- _ /\ _ => split end; intros a.
  all: try (intros H; apply rejected_at_intro; errors_by_field;
            rewrite H; field_error).
  - destruct (all_or_nothing _ (analyze_validate_definite a))
      as [(r & Hr & _)|(es & Hes & Hne & _)].
    + left. exists r. eauto using analyze_validate_valid.
    + right. now exists es.
  - destruct (all_or_nothing _ (refactor_validate_definite a))
      as [(r & Hr & _)|(es & Hes & Hne & _)].
    + left. exists r. eauto using refactor_validate_valid.
    + right. now exists es.
  - destruct (all_or_nothing _ (review_validate_definite a))
      as [(r & Hr & _)|(es & Hes & Hne & _)].
    + left. exists r. eauto using review_validate_valid.
    + right. now exists es.
Qed.

Lemma invalid_calls_are_rejected_witness :
  rejected_at (TextAnalyze.validate Examples.analyze_no_findings)
    "findings" missing /\
  rejected_at (TextRefactor.validate Examples.refactor_step_0)
    "step_number" (greater_than_equal 1) /\
  rejected_at (TextReview.validate Examples.review_step_0_no_findings)
    "findings" missing /\
  rejected_at (TextReview.validate Examples.review_step_0_no_findings)
    "step_number" (greater_than_equal 1).
Proof.
  destruct invalid_calls_are_rejected
    as ((Ha & _) & (_ & Hf & _) & (Hv1 & Hv2 & _)).
  split; [|split; [|split]].
  - apply Ha. reflexivity.
  - apply Hf. reflexivity.
  - apply Hv1. reflexivity.
  - apply Hv2. reflexivity.
Defined.

Lemma not_In_py_in (x : string) (words : list string) :
  ~ In x words -> py_in x words = false.
Proof.
  intros H. destruct (py_in x words) eqn:E; [|reflexivity].
  apply py_in_In in E. contradiction.
Qed.

(** A word outside the vocabulary of a [Literal] field. *)
Ltac outside_vocabulary :=
  intros a s Hs Hout; apply rejected_at_intro; errors_by_field;
  rewrite Hs; rewrite literal_outside by (apply not_In_py_in; exact Hout);
  field_error.

(** C6. Each tool rejects a classification or a confidence that is not a
    word of its own vocabulary, with the line (field, literal_error
    vocabulary). In particular textanalyze rejects the analysis type
    ["unknown"], and textrefactor, whose confidences are exploring,
    incomplete, partial and complete, rejects the confidence ["certain"]. *)
Theorem words_outside_vocabulary_are_rejected :
  (forall a s, TextAnalyze.arg_analysis_type a = Some s ->
     ~ In s TextAnalyze.analysis_types ->
     rejected_at (TextAnalyze.validate a) "analysis_type"
       (literal_error TextAnalyze.analysis_types)) /\
  (forall a s, TextAnalyze.arg_confidence a = Some s ->
     ~ In s TextAnalyze.confidences ->
     rejected_at (TextAnalyze.validate a) "confidence"
       (literal_error TextAnalyze.confidences)) /\
  (forall a s, TextRefactor.arg_refactor_type a = Some s ->
     ~ In s TextRefactor.refactor_types ->
     rejected_at (TextRefactor.validate a) "refactor_type"
       (literal_error TextRefactor.refactor_types)) /\
  (forall a s, TextRefactor.arg_confidence a = Some s ->
     ~ In s TextRefactor.confidences ->
     rejected_at (TextRefactor.validate a) "confidence"
       (literal_error TextRefactor.confidences)) /\
  (forall a s, TextReview.arg_review_type a = Some s ->
     ~ In s TextReview.review_types ->
     rejected_at (TextReview.validate a) "review_type"
       (literal_error TextReview.review_types)) /\
  (forall a s, TextReview.arg_confidence a = Some s ->
     ~ In s TextReview.confidences ->
     rejected_at (TextReview.validate a) "confidence"
       (literal_error TextReview.confidences)) /\
  (forall a, TextAnalyze.arg_analysis_type a = Some "unknown" ->
     rejected_at (TextAnalyze.validate a) "analysis_type"
       (literal_error
          ["structure"; "themes"; "arguments"; "style"; "readability"; "general"])) /\
  (forall a, TextRefactor.arg_confidence a = Some "certain" ->
     rejected_at (TextRefactor.validate a) "confidence"
       (literal_error ["exploring"; "incomplete"; "partial"; "complete"])).
Proof.
  repeat match goal with |- _ /\ _ => split end.
  1-6: outside_vocabulary.
  - intros a Hs. apply rejected_at_intro. errors_by_field.
    rewrite Hs. field_error.
  - intros a Hs. apply rejected_at_intro. errors_by_field.
    rewrite Hs. field_error.
Qed.

Lemma words_outside_vocabulary_are_rejected_witness :
  rejected_at (TextAnalyze.validate Examples.analyze_unknown_type)
    "analysis_type" (literal_error TextAnalyze.analysis_types) /\
  rejected_at (TextRefactor.validate Examples.refactor_certain)
    "confidence" (literal_error TextRefactor.confidences).
Proof.
  destruct words_outside_vocabulary_are_rejected
    as (Ha & _ & _ & Hf & _).
  split.
  - apply (Ha Examples.analyze_unknown_type "unknown"); [reflexivity|].
    simpl. intuition discriminate.
  - apply (Hf Examples.refactor_certain "certain"); [reflexivity|].
    simpl. intuition discriminate.
Defined.

(** ** Fields that validation leaves alone *)

(** Whether a call is accepted, read from the error lines of its fields. *)
Ltac accepted_by_errors :=
  repeat rewrite is_valid_errors
    by auto using analyze_validate_definite, refactor_validate_definite,
         review_validate_definite;
  errors_by_field; repeat rewrite errors_optional_list; reflexivity.

(** An accepted field holds the value that was given. *)
Ltac given_value :=
  match goal with
  | Hgiven : ?f = Some ?v, H : required _ ?f = inr _ |- _ =>
      rewrite Hgiven in H; simpl in H; injection H as <-; reflexivity
  | Hgiven : ?f = Some ?v, H : optional_list ?f = inr _ |- _ =>
      rewrite Hgiven in H; simpl in H; injection H as <-; reflexivity
  end.

(** The counterexample to C8: each tool accepts a call whose issues carry
    the severity ["urgent"], or no severity at all, and keeps them. *)
Lemma unlisted_severity_is_accepted :
  severity_ok Examples.urgent_issue = false /\
  dict_get "severity" Examples.bare_issue = None /\
  (exists r, TextAnalyze.validate Examples.analyze_odd_issues = inr r /\
             TextAnalyze.issues_found r
             = Some [Examples.urgent_issue; Examples.bare_issue]) /\
  (exists r, TextRefactor.validate Examples.refactor_odd_issues = inr r /\
             TextRefactor.issues_found r
             = Some [Examples.urgent_issue; Examples.bare_issue]) /\
  (exists r, TextReview.validate Examples.review_odd_issues = inr r /\
             TextReview.issues_found r
             = Some [Examples.urgent_issue; Examples.bare_issue]).
Proof.
  split; [reflexivity|]. split; [reflexivity|].
  split; [|split]; eexists; split; reflexivity.
Qed.

(** C8, amended. No tool inspects the entries of [issues_found]: whether a
    call is accepted does not depend on the issues it carries, and an
    accepted request holds the given issues as they are, whatever their
    severity. *)
Theorem issues_are_not_inspected :
  ((forall a items, is_valid (TextAnalyze.validate (TextAnalyze.with_arg_issues_found items a))
                    = is_valid (TextAnalyze.validate a)) /\
   (forall a items r, TextAnalyze.arg_issues_found a = Some items ->
      TextAnalyze.validate a = inr r -> TextAnalyze.issues_found r = items)) /\
  ((forall a items, is_valid (TextRefactor.validate (TextRefactor.with_arg_issues_found items a))
                    = is_valid (TextRefactor.validate a)) /\
   (forall a items r, TextRefactor.arg_issues_found a = Some items ->
      TextRefactor.validate a = inr r -> TextRefactor.issues_found r = items)) /\
  ((forall a items, is_valid (TextReview.validate (TextReview.with_arg_issues_found items a))
                    = is_valid (TextReview.validate a)) /\
   (forall a items r, TextReview.arg_issues_found a = Some items ->
      TextReview.validate a = inr r -> TextReview.issues_found r = items)).
Proof.
  repeat match goal with |- _ /\ _ => split end.
  - intros a items. accepted_by_errors.
  - intros a items r Hgiven H. unfold TextAnalyze.validate in H.
    split_fields H. simpl. given_value.
  - intros a items. accepted_by_errors.
  - intros a items r Hgiven H. unfold TextRefactor.validate in H.
    split_fields H. simpl. given_value.
  - intros a items. accepted_by_errors.
  - intros a items r Hgiven H. unfold TextReview.validate in H.
    split_fields H. simpl. given_value.
Qed.

Lemma issues_are_not_inspected_witness :
  is_valid (TextAnalyze.validate
              (TextAnalyze.with_arg_issues_found
                 (Some (Some [Examples.urgent_issue])) Examples.analyze_step_1))
  = is_valid (TextAnalyze.validate Examples.analyze_step_1) /\
  (exists r, TextReview.validate Examples.review_odd_issues = inr r /\
             TextReview.issues_found r
             = Some [Examples.urgent_issue; Examples.bare_issue]).
Proof.
  destruct issues_are_not_inspected as ((Ha & _) & _ & (_ & Hv)).
  split.
  - apply Ha.
  - eexists. split; [reflexivity|].
    apply (Hv Examples.review_odd_issues); reflexivity.
Defined.

(** The counterexample to C9: each tool accepts a call whose [step] is the
    empty text. *)
Lemma empty_step_is_accepted :
  (exists r, TextAnalyze.validate Examples.analyze_empty_step = inr r /\
             TextAnalyze.step r = "") /\
  (exists r, TextRefactor.validate Examples.refactor_empty_step = inr r /\
             TextRefactor.step r = "") /\
  (exists r, TextReview.validate Examples.review_empty_step = inr r /\
             TextReview.step r = "").
Proof.
  split; [|split]; eexists; split; reflexivity.
Qed.

(** C9, amended. In each tool [step] is required and is not looked into: a
    call without [step] is rejected with the line ([step], missing); whether
    a call with a [step] is accepted does not depend on its text, the empty
    text included; and an accepted request holds the given text. *)
Theorem step_is_required_and_opaque :
  ((forall a, TextAnalyze.arg_step a = None ->
      rejected_at (TextAnalyze.validate a) "step" missing) /\
   (forall a s s',
      is_valid (TextAnalyze.validate (TextAnalyze.with_arg_step (Some s) a))
      = is_valid (TextAnalyze.validate (TextAnalyze.with_arg_step (Some s') a))) /\
   (forall a s r, TextAnalyze.arg_step a = Some s ->
      TextAnalyze.validate a = inr r -> TextAnalyze.step r = s)) /\
  ((forall a, TextRefactor.arg_step a = None ->
      rejected_at (TextRefactor.validate a) "step" missing) /\
   (forall a s s',
      is_valid (TextRefactor.validate (TextRefactor.with_arg_step (Some s) a))
      = is_valid (TextRefactor.validate (TextRefactor.with_arg_step (Some s') a))) /\
   (forall a s r, TextRefactor.arg_step a = Some s ->
      TextRefactor.validate a = inr r -> TextRefactor.step r = s)) /\
  ((forall a, TextReview.arg_step a = None ->
      rejected_at (TextReview.validate a) "step" missing) /\
   (forall a s s',
      is_valid (TextReview.validate (TextReview.with_arg_step (Some s) a))
      = is_valid (TextReview.validate (TextReview.with_arg_step (Some s') a))) /\
   (forall a s r, TextReview.arg_step a = Some s ->
      TextReview.validate a = inr r -> TextReview.step r = s)).
Proof.
  repeat match goal with |- _ /\ _ => split end.
  all: try (intros a H; apply rejected_at_intro; errors_by_field;
            rewrite H; field_error).
  all: try (intros a s s'; accepted_by_errors).
  - intros a s r Hgiven H. unfold TextAnalyze.validate in H.
    split_fields H. simpl. given_value.
  - intros a s r Hgiven H. unfold TextRefactor.validate in H.
    split_fields H. simpl. given_value.
  - intros a s r Hgiven H. unfold TextReview.validate in H.
    split_fields H. simpl. given_value.
Qed.

Lemma step_is_required_and_opaque_witness :
  rejected_at
    (TextAnalyze.validate (TextAnalyze.with_arg_step None Examples.analyze_step_1))
    "step" missing /\
  (exists r, TextRefactor.validate Examples.refactor_empty_step = inr r /\
             TextRefactor.step r = "").
Proof.
  destruct step_is_required_and_opaque as ((Ha & _) & (_ & _ & Hf) & _).
  split.
  - apply Ha. reflexivity.
  - eexists. split; [reflexivity|].
    apply (Hf Examples.refactor_empty_step); reflexivity.
Defined.

(** ** The expert-analysis context *)

Lemma extend_not_nil {A : Type} (parts more : list A) :
  parts <> [] -> extend parts more <> [].
Proof. destruct parts; simpl; congruence. Qed.

Lemma add_section_not_nil {A : Type} (parts : list string) (title : string)
  (render : A -> string) (items : option (list A)) :
  parts <> [] -> add_section parts title render items <> [].
Proof.
  intros H. unfold add_section.
  destruct (truthy items); [now apply extend_not_nil | assumption].
Qed.

(** A conditional [extend] adds the optional section to the joined text. *)
Lemma join_add_section {A : Type} (parts : list string) (title : string)
  (render : A -> string) (items : option (list A)) :
  parts <> [] ->
  join nl (add_section parts title render items)
  = join nl parts ++ optional_section title render items.
Proof.
  intros H. unfold add_section, optional_section.
  destruct (truthy items).
  - now apply join_extend_section.
  - now rewrite append_empty_r.
Qed.

(** The five parts of the heading followed by the findings. *)
Lemma join_heading_findings (a b c d e findings : string) :
  join nl [a; b; c; d; e; findings] = join nl [a; b; c; d; e] ++ nl ++ findings.
Proof.
  change [a; b; c; d; e; findings] with (extend [a; b; c; d; e] [findings]).
  now rewrite join_extend by discriminate.
Qed.

(** Six parts and one optional section. *)
Lemma join_one_section {A : Type} (a b c d e findings : string)
  (title : string) (render : A -> string) (items : option (list A)) :
  join nl (add_section [a; b; c; d; e; findings] title render items)
  = join nl [a; b; c; d; e] ++ nl ++ findings
    ++ optional_section title render items.
Proof.
  rewrite join_add_section by discriminate.
  rewrite join_heading_findings.
  now rewrite !append_assoc.
Qed.

(** Six parts and two optional sections. *)
Lemma join_two_sections {A B : Type} (a b c d e findings : string)
  (title1 : string) (render1 : A -> string) (items1 : option (list A))
  (title2 : string) (render2 : B -> string) (items2 : option (list B)) :
  join nl (add_section (add_section [a; b; c; d; e; findings] title1 render1 items1)
             title2 render2 items2)
  = join nl [a; b; c; d; e] ++ nl ++ findings
    ++ optional_section title1 render1 items1
    ++ optional_section title2 render2 items2.
Proof.
  rewrite join_add_section by (apply add_section_not_nil; discriminate).
  rewrite join_one_section.
  now rewrite !append_assoc.
Qed.

(** The context of textanalyze: heading, findings, then the issues if there
    are any, then the themes if there are any. *)
Lemma analyze_context_shape (str_dict : Issue -> string) (r : TextAnalyze.Request) :
  TextAnalyze.prepare_expert_analysis_context str_dict r
  = TextAnalyze.heading r ++ nl ++ TextAnalyze.findings r
    ++ optional_section "ISSUES IDENTIFIED:" str_dict (TextAnalyze.issues_found r)
    ++ optional_section "KEY THEMES/ARGUMENTS:" (fun x => x)
         (TextAnalyze.relevant_context r).
Proof.
  exact (join_two_sections _ _ _ _ _ _ _ _ _ _ (fun x => x) _).
Qed.

(** The context of textrefactor: heading, findings, then the opportunities
    if there are any, then the focus areas if there are any. *)
Lemma refactor_context_shape (str_dict : Issue -> string) (r : TextRefactor.Request) :
  TextRefactor.prepare_expert_analysis_context str_dict r
  = TextRefactor.heading r ++ nl ++ TextRefactor.findings r
    ++ optional_section "REFACTORING OPPORTUNITIES:" str_dict
         (TextRefactor.issues_found r)
    ++ optional_section "FOCUS AREAS:" (fun x => x) (TextRefactor.focus_areas r).
Proof.
  exact (join_two_sections _ _ _ _ _ _ _ _ _ _ (fun x => x) _).
Qed.

(** The context of textreview: heading, findings, then the issues if there
    are any; nothing else. *)
Lemma review_context_shape (str_dict : Issue -> string) (r : TextReview.Request) :
  TextReview.prepare_expert_analysis_context str_dict r
  = TextReview.heading r ++ nl ++ TextReview.findings r
    ++ optional_section "ISSUES IDENTIFIED:" str_dict (TextReview.issues_found r).
Proof.
  exact (join_one_section _ _ _ _ _ _ _ _ _).
Qed.

Lemma optional_section_empty {A : Type} (title : string) (render : A -> string)
  (items : option (list A)) :
  ~ non_empty items -> optional_section title render items = "".
Proof.
  intros H. unfold optional_section.
  destruct (truthy items) eqn:E; [|reflexivity].
  apply truthy_non_empty in E. contradiction.
Qed.

Lemma optional_section_non_empty {A : Type} (title : string)
  (render : A -> string) (items : option (list A)) :
  non_empty items ->
  optional_section title render items
  = section_text title (map render (entries items)).
Proof.
  intros H. unfold optional_section.
  apply truthy_non_empty in H. now rewrite H.
Qed.

Lemma occurs_in_middle (a needle b : string) :
  occurs_in needle (a ++ needle ++ b) = true.
Proof. apply occurs_in_spec. now exists a, b. Qed.

(** The counterexample to C4: a valid review request with the theme
    ["motif"], whose context stops after the findings and holds the theme
    nowhere; and a valid analysis request with one theme written on two
    lines, which takes two lines of the context. *)
Lemma review_context_has_no_themes :
  TextReview.valid Examples.review_step_2 /\
  TextReview.relevant_context Examples.review_step_2 = Some ["motif"] /\
  lines (TextReview.prepare_expert_analysis_context repr_dict Examples.review_step_2)
  = [ "TEXT REVIEW REQUEST - CLARITY"; "Review confidence: high"; "Step 2 of 3";
      ""; "REVIEW FINDINGS:"; "Claims are not sourced" ] /\
  occurs_in "motif"
    (TextReview.prepare_expert_analysis_context repr_dict Examples.review_step_2)
  = false /\
  TextAnalyze.valid Examples.analyze_two_line_theme /\
  length (entries (TextAnalyze.relevant_context Examples.analyze_two_line_theme))
  = 1%nat /\
  lines (TextAnalyze.prepare_expert_analysis_context repr_dict
           Examples.analyze_two_line_theme)
  = [ "TEXT ANALYSIS REQUEST - GENERAL"; "Analysis confidence: medium";
      "Step 2 of 3"; ""; "ANALYSIS FINDINGS:";
      "The second section restates the first"; ""; "ISSUES IDENTIFIED:";
      "- {'severity': 'high', 'description': 'Weak thesis'}";
      "- {'severity': 'low', 'type': 'flow', 'description': 'The introduction is too long'}";
      ""; "KEY THEMES/ARGUMENTS:"; "- first"; "second" ].
Proof.
  split.
  { unfold TextReview.valid; simpl.
    repeat split; try reflexivity; try lia. discriminate. }
  do 3 (split; [reflexivity|]).
  split.
  { unfold TextAnalyze.valid; simpl.
    repeat split; try reflexivity; try lia. discriminate. }
  split; reflexivity.
Qed.

(** C4, amended. In textanalyze (for [relevant_context]) and in
    textrefactor (for [focus_areas]), when the list holds an entry the
    context is the context of the same request without the list, that is
    heading, findings and the issues section if any, followed by one
    section: an empty line, the title, and each entry after a dash, in
    order; the entries are one line each when they hold no line feed. In
    textreview the context does not depend on [relevant_context]. *)
Theorem themes_section_closes_the_context :
  (forall str_dict r,
     non_empty (TextAnalyze.relevant_context r) ->
     let before :=
       TextAnalyze.prepare_expert_analysis_context str_dict
         (TextAnalyze.with_relevant_context (Some []) r) in
     let themes := entries (TextAnalyze.relevant_context r) in
     before = TextAnalyze.heading r ++ nl ++ TextAnalyze.findings r
              ++ optional_section "ISSUES IDENTIFIED:" str_dict
                   (TextAnalyze.issues_found r) /\
     TextAnalyze.prepare_expert_analysis_context str_dict r
     = before ++ section_text "KEY THEMES/ARGUMENTS:" themes /\
     (forallb single_line themes = true ->
      lines (TextAnalyze.prepare_expert_analysis_context str_dict r)
      = (lines before
           ++ "" :: "KEY THEMES/ARGUMENTS:"
              :: map (fun theme => ("- " ++ theme)%string) themes)%list)) /\
  (forall str_dict r,
     non_empty (TextRefactor.focus_areas r) ->
     let before :=
       TextRefactor.prepare_expert_analysis_context str_dict
         (TextRefactor.with_focus_areas (Some []) r) in
     let areas := entries (TextRefactor.focus_areas r) in
     before = TextRefactor.heading r ++ nl ++ TextRefactor.findings r
              ++ optional_section "REFACTORING OPPORTUNITIES:" str_dict
                   (TextRefactor.issues_found r) /\
     TextRefactor.prepare_expert_analysis_context str_dict r
     = before ++ section_text "FOCUS AREAS:" areas /\
     (forallb single_line areas = true ->
      lines (TextRefactor.prepare_expert_analysis_context str_dict r)
      = (lines before
           ++ "" :: "FOCUS AREAS:"
              :: map (fun area => ("- " ++ area)%string) areas)%list)) /\
  (forall str_dict r themes,
     TextReview.prepare_expert_analysis_context str_dict
       (TextReview.with_relevant_context themes r)
     = TextReview.prepare_expert_analysis_context str_dict r).
Proof.
  split; [|split].
  - intros str_dict r Hne before themes.
    assert (Hb : before
                 = TextAnalyze.heading r ++ nl ++ TextAnalyze.findings r
                   ++ optional_section "ISSUES IDENTIFIED:" str_dict
                        (TextAnalyze.issues_found r)).
    { unfold before. rewrite analyze_context_shape.
      unfold optional_section at 2. simpl truthy. cbv iota.
      now rewrite !append_empty_r. }
    assert (Ho : TextAnalyze.prepare_expert_analysis_context str_dict r
                 = before ++ section_text "KEY THEMES/ARGUMENTS:" themes).
    { rewrite Hb, analyze_context_shape.
      rewrite (optional_section_non_empty "KEY THEMES/ARGUMENTS:") by assumption.
      rewrite map_id. now rewrite !append_assoc. }
    split; [exact Hb|]. split; [exact Ho|].
    intros Hlines. rewrite Ho. now apply lines_section.
  - intros str_dict r Hne before areas.
    assert (Hb : before
                 = TextRefactor.heading r ++ nl ++ TextRefactor.findings r
                   ++ optional_section "REFACTORING OPPORTUNITIES:" str_dict
                        (TextRefactor.issues_found r)).
    { unfold before. rewrite refactor_context_shape.
      unfold optional_section at 2. simpl truthy. cbv iota.
      now rewrite !append_empty_r. }
    assert (Ho : TextRefactor.prepare_expert_analysis_context str_dict r
                 = before ++ section_text "FOCUS AREAS:" areas).
    { rewrite Hb, refactor_context_shape.
      rewrite (optional_section_non_empty "FOCUS AREAS:") by assumption.
      rewrite map_id. now rewrite !append_assoc. }
    split; [exact Hb|]. split; [exact Ho|].
    intros Hlines. rewrite Ho. now apply lines_section.
  - reflexivity.
Qed.

Lemma themes_section_closes_the_context_witness :
  lines (TextAnalyze.prepare_expert_analysis_context repr_dict
           Examples.analyze_step_2)
  = (lines (TextAnalyze.prepare_expert_analysis_context repr_dict
              (TextAnalyze.with_relevant_context (Some []) Examples.analyze_step_2))
       ++ [""; "KEY THEMES/ARGUMENTS:"; "- progress"; "- memory"])%list /\
  lines (TextRefactor.prepare_expert_analysis_context repr_dict
           Examples.refactor_step_2)
  = (lines (TextRefactor.prepare_expert_analysis_context repr_dict
              (TextRefactor.with_focus_areas (Some []) Examples.refactor_step_2))
       ++ [""; "FOCUS AREAS:"; "- introduction"; "- transitions"])%list.
Proof.
  destruct themes_section_closes_the_context as (Ha & Hf & _).
  split.
  - assert (Hne : non_empty (TextAnalyze.relevant_context Examples.analyze_step_2))
      by (exists "progress", ["memory"]; reflexivity).
    destruct (Ha repr_dict Examples.analyze_step_2 Hne) as (_ & _ & H).
    exact (H eq_refl).
  - assert (Hne : non_empty (TextRefactor.focus_areas Examples.refactor_step_2))
      by (exists "introduction", ["transitions"]; reflexivity).
    destruct (Hf repr_dict Examples.refactor_step_2 Hne) as (_ & _ & H).
    exact (H eq_refl).
Defined.

(** ** Python's rendering of an issue is one line *)

(** No escape of a character is a line feed: a line feed is written as a
    backslash and the letter n. *)
Lemma single_line_repr_char (c : ascii) :
  single_line (repr_char single_quote c) = true /\
  single_line (repr_char double_quote c) = true.
Proof.
  destruct c as [[] [] [] [] [] [] [] []]; split; reflexivity.
Qed.

Lemma single_line_repr_chars (s : string) :
  single_line (repr_chars single_quote s) = true /\
  single_line (repr_chars double_quote s) = true.
Proof.
  induction s as [|c s [IH1 IH2]]; simpl.
  - now split.
  - rewrite !single_line_app, IH1, IH2.
    destruct (single_line_repr_char c) as [-> ->]. now split.
Qed.

Lemma single_line_repr_str (s : string) : single_line (repr_str s) = true.
Proof.
  unfold repr_str.
  destruct (single_line_repr_chars s) as [H1 H2].
  destruct (has_char single_quote s && negb (has_char double_quote s))%bool.
  - change (String double_quote (repr_chars double_quote s ++ String double_quote ""))
      with (String double_quote "" ++ repr_chars double_quote s ++ String double_quote "").
    now rewrite !single_line_app, H2.
  - change (String single_quote (repr_chars single_quote s ++ String single_quote ""))
      with (String single_quote "" ++ repr_chars single_quote s ++ String single_quote "").
    now rewrite !single_line_app, H1.
Qed.

Lemma single_line_string_of_uint (d : Decimal.uint) :
  single_line (DecimalString.NilEmpty.string_of_uint d) = true.
Proof. induction d; simpl; auto. Qed.

Lemma single_line_nilzero_uint (d : Decimal.uint) :
  single_line (DecimalString.NilZero.string_of_uint d) = true.
Proof.
  destruct d; try reflexivity;
    exact (single_line_string_of_uint _).
Qed.

Lemma single_line_str_int (n : Z) : single_line (str_int n) = true.
Proof.
  unfold str_int, DecimalString.NilZero.string_of_int.
  destruct (Z.to_int n) as [d|d].
  - apply single_line_nilzero_uint.
  - simpl. apply single_line_nilzero_uint.
Qed.

Lemma single_line_join (sep : string) (parts : list string) :
  single_line sep = true ->
  forallb single_line parts = true ->
  single_line (join sep parts) = true.
Proof.
  intros Hs. induction parts as [|x parts IH]; [reflexivity|].
  intros H. simpl in H. apply andb_true_iff in H as [Hx Hp].
  destruct parts as [|y parts]; [exact Hx|].
  rewrite join_cons2, !single_line_app, Hx, Hs. simpl. auto.
Qed.

(** [repr] of a JSON-like value holds no line feed. *)
Fixpoint single_line_repr (v : pyval) {struct v} : single_line (repr v) = true.
Proof.
  destruct v as [| [|] | n | s | items | items].
  - reflexivity.
  - reflexivity.
  - reflexivity.
  - apply single_line_str_int.
  - apply single_line_repr_str.
  - change (repr (PyList items)) with ("[" ++ join ", " (map repr items) ++ "]").
    rewrite !single_line_app, single_line_join; [reflexivity | reflexivity |].
    induction items as [|x items IH]; [reflexivity|].
    cbn [map forallb]. now rewrite single_line_repr, IH.
  - change (repr (PyDict items))
      with ("{" ++ join ", " (map (fun kv => let '(k, x) := kv in
                                        repr_str k ++ ": " ++ repr x) items) ++ "}").
    rewrite !single_line_app, single_line_join; [reflexivity | reflexivity |].
    induction items as [|[k x] items IH]; [reflexivity|].
    cbn [map forallb].
    rewrite !single_line_app, single_line_repr_str, single_line_repr, IH.
    reflexivity.
Qed.

(** Python renders every issue of a list on one line. *)
Lemma single_line_repr_dict (issues : list Issue) :
  forallb single_line (map repr_dict issues) = true.
Proof.
  induction issues as [|issue issues IH]; [reflexivity|].
  cbn [map forallb]. unfold repr_dict at 1.
  now rewrite single_line_repr, IH.
Qed.

(** The context with issues and without a closing section. *)
Lemma context_with_issues_only (before findings title : string)
  (str_dict : Issue -> string) (issues : option (list Issue)) (context : string) :
  context = before ++ nl ++ findings ++ optional_section title str_dict issues ->
  single_line title = true ->
  non_empty issues ->
  context = before ++ nl ++ findings
            ++ section_text title (map str_dict (entries issues)) /\
  occurs_in findings context = true /\
  (forallb single_line (map str_dict (entries issues)) = true ->
   lines context
   = (lines (before ++ nl ++ findings)
        ++ "" :: title
           :: map (fun issue => ("- " ++ str_dict issue)%string) (entries issues))%list).
Proof.
  intros -> Ht Hne.
  rewrite optional_section_non_empty by assumption.
  split; [reflexivity|]. split.
  - rewrite <- append_assoc. apply occurs_in_middle.
  - intros Hl.
    replace (before ++ nl ++ findings
             ++ section_text title (map str_dict (entries issues)))
      with ((before ++ nl ++ findings)
            ++ section_text title (map str_dict (entries issues)))
      by now rewrite !append_assoc.
    rewrite lines_section by assumption.
    now rewrite map_map.
Qed.

(** C5. With at least one issue and no theme (textanalyze), no focus area
    (textrefactor), the context is the heading, the findings as they are,
    and the issues section: an empty line, the title, and one dashed entry
    for each issue in the order of the list; nothing follows, so there is no
    themes section. The entries are one line each when the rendering of an
    issue holds no line feed. With no issue either, the context ends with
    the findings: a list without entry adds no title. Python's rendering
    of a dictionary of JSON-like values, [repr_dict], holds no line feed. *)
Theorem context_passes_findings_and_issues_through :
  (forall str_dict r,
     non_empty (TextAnalyze.issues_found r) ->
     ~ non_empty (TextAnalyze.relevant_context r) ->
     let issues := entries (TextAnalyze.issues_found r) in
     let context := TextAnalyze.prepare_expert_analysis_context str_dict r in
     context = TextAnalyze.heading r ++ nl ++ TextAnalyze.findings r
               ++ section_text "ISSUES IDENTIFIED:" (map str_dict issues) /\
     occurs_in (TextAnalyze.findings r) context = true /\
     (forallb single_line (map str_dict issues) = true ->
      lines context
      = (lines (TextAnalyze.heading r ++ nl ++ TextAnalyze.findings r)
           ++ "" :: "ISSUES IDENTIFIED:"
              :: map (fun issue => ("- " ++ str_dict issue)%string) issues)%list)) /\
  (forall str_dict r,
     non_empty (TextRefactor.issues_found r) ->
     ~ non_empty (TextRefactor.focus_areas r) ->
     let issues := entries (TextRefactor.issues_found r) in
     let context := TextRefactor.prepare_expert_analysis_context str_dict r in
     context = TextRefactor.heading r ++ nl ++ TextRefactor.findings r
               ++ section_text "REFACTORING OPPORTUNITIES:" (map str_dict issues) /\
     occurs_in (TextRefactor.findings r) context = true /\
     (forallb single_line (map str_dict issues) = true ->
      lines context
      = (lines (TextRefactor.heading r ++ nl ++ TextRefactor.findings r)
           ++ "" :: "REFACTORING OPPORTUNITIES:"
              :: map (fun issue => ("- " ++ str_dict issue)%string) issues)%list)) /\
  (forall str_dict r,
     non_empty (TextReview.issues_found r) ->
     let issues := entries (TextReview.issues_found r) in
     let context := TextReview.prepare_expert_analysis_context str_dict r in
     context = TextReview.heading r ++ nl ++ TextReview.findings r
               ++ section_text "ISSUES IDENTIFIED:" (map str_dict issues) /\
     occurs_in (TextReview.findings r) context = true /\
     (forallb single_line (map str_dict issues) = true ->
      lines context
      = (lines (TextReview.heading r ++ nl ++ TextReview.findings r)
           ++ "" :: "ISSUES IDENTIFIED:"
              :: map (fun issue => ("- " ++ str_dict issue)%string) issues)%list)) /\
  (forall str_dict r,
     ~ non_empty (TextAnalyze.issues_found r) ->
     ~ non_empty (TextAnalyze.relevant_context r) ->
     TextAnalyze.prepare_expert_analysis_context str_dict r
     = TextAnalyze.heading r ++ nl ++ TextAnalyze.findings r) /\
  (forall str_dict r,
     ~ non_empty (TextRefactor.issues_found r) ->
     ~ non_empty (TextRefactor.focus_areas r) ->
     TextRefactor.prepare_expert_analysis_context str_dict r
     = TextRefactor.heading r ++ nl ++ TextRefactor.findings r) /\
  (forall str_dict r,
     ~ non_empty (TextReview.issues_found r) ->
     TextReview.prepare_expert_analysis_context str_dict r
     = TextReview.heading r ++ nl ++ TextReview.findings r) /\
  (forall issues, forallb single_line (map repr_dict issues) = true).
Proof.
  repeat match goal with |- _ /\ _ => split end;
    try exact single_line_repr_dict.
  - intros str_dict r Hi Ht issues context.
    apply context_with_issues_only; [|reflexivity|assumption].
    unfold context. rewrite analyze_context_shape.
    rewrite (optional_section_empty "KEY THEMES/ARGUMENTS:") by assumption.
    now rewrite !append_empty_r.
  - intros str_dict r Hi Ht issues context.
    apply context_with_issues_only; [|reflexivity|assumption].
    unfold context. rewrite refactor_context_shape.
    rewrite (optional_section_empty "FOCUS AREAS:") by assumption.
    now rewrite !append_empty_r.
  - intros str_dict r Hi issues context.
    apply context_with_issues_only; [|reflexivity|assumption].
    unfold context. now rewrite review_context_shape.
  - intros str_dict r Hi Ht. rewrite analyze_context_shape.
    rewrite !optional_section_empty by assumption.
    now rewrite !append_empty_r.
  - intros str_dict r Hi Ht. rewrite refactor_context_shape.
    rewrite !optional_section_empty by assumption.
    now rewrite !append_empty_r.
  - intros str_dict r Hi. rewrite review_context_shape.
    rewrite !optional_section_empty by assumption.
    now rewrite !append_empty_r.
Qed.

Lemma context_passes_findings_and_issues_through_witness :
  lines (TextAnalyze.prepare_expert_analysis_context repr_dict
           (TextAnalyze.with_relevant_context (Some []) Examples.analyze_step_2))
  = [ "TEXT ANALYSIS REQUEST - GENERAL"; "Analysis confidence: medium";
      "Step 2 of 3"; ""; "ANALYSIS FINDINGS:";
      "The second section restates the first"; ""; "ISSUES IDENTIFIED:";
      "- {'severity': 'high', 'description': 'Weak thesis'}";
      "- {'severity': 'low', 'type': 'flow', 'description': 'The introduction is too long'}" ] /\
  TextReview.prepare_expert_analysis_context repr_dict Examples.review_step_2
  = TextReview.heading Examples.review_step_2 ++ nl ++ "Claims are not sourced".
Proof.
  destruct context_passes_findings_and_issues_through
    as (Ha & _ & _ & _ & _ & Hv & Hrepr).
  split.
  - assert (Hi : non_empty
                   (TextAnalyze.issues_found
                      (TextAnalyze.with_relevant_context (Some [])
                         Examples.analyze_step_2)))
      by (exists Examples.weak_thesis, [Examples.long_intro]; reflexivity).
    assert (Ht : ~ non_empty
                     (TextAnalyze.relevant_context
                        (TextAnalyze.with_relevant_context (Some [])
                           Examples.analyze_step_2)))
      by (intros (x & rest & E); discriminate E).
    destruct (Ha repr_dict _ Hi Ht) as (_ & _ & H).
    exact (H (Hrepr _)).
  - apply (Hv repr_dict Examples.review_step_2).
    intros (x & rest & E). discriminate E.
Defined.

Lemma omitted_classification_default_witness :
  (exists r, TextRefactor.validate Examples.refactor_later_call = inr r /\
             TextRefactor.refactor_type r = "organization" /\
             TextRefactor.should_embed_files_as_context r = true) /\
  (exists r, TextReview.validate Examples.review_later_call = inr r /\
             TextReview.review_type r = "comprehensive" /\
             TextReview.should_embed_files_as_context r = true) /\
  (exists r, TextAnalyze.validate Examples.analyze_later_call = inr r /\
             TextAnalyze.analysis_type r = "general" /\
             TextAnalyze.should_embed_files_as_context r = false).
Proof.
  destruct omitted_classification_default as (Hf & Hv & Ha).
  split; [|split].
  - eexists. split; [reflexivity|].
    apply (Hf Examples.refactor_later_call); reflexivity.
  - eexists. split; [reflexivity|].
    apply (Hv Examples.review_later_call); reflexivity.
  - eexists. split; [reflexivity|].
    destruct (Ha Examples.analyze_later_call _ eq_refl eq_refl) as (Ht & He).
    split; [exact Ht|].
    apply He.
    + simpl. lia.
    + intros (x & rest & E). discriminate E.
Defined.

(** * Further properties *)

(** ** The rules of each field *)







(** The error lines of each kind of field. *)






Lemma ap_inr_intro {A B : Type} (f : V (A -> B)) (x : V A) (g : A -> B) (a : A) :
  f = inr g -> x = inr a -> f <*> x = inr (g a).
Proof. now intros -> ->. Qed.





(** ** textanalyze: what is accepted, and what a rejection says *)




(** ** textrefactor: what is accepted, and what a rejection says *)




(** ** textreview: what is accepted, and what a rejection says *)




(** ** Defaults and decisions *)

Ltac default_confidence :=
  match goal with
  | H : literal "confidence" _ _ None = inr _ |- _ =>
      simpl in H; injection H as <-
  end.

(** X7. A call that gives no confidence is taken at the first level of the
    tool's scale, ["exploring"] for textanalyze and textreview and
    ["incomplete"] for textrefactor, and expert analysis is then called:
    the default is never the word that skips it. *)
Theorem omitted_confidence_calls_expert_analysis :
  (forall a r, TextAnalyze.arg_confidence a = None ->
     TextAnalyze.validate a = inr r ->
     TextAnalyze.confidence r = "exploring" /\
     TextAnalyze.should_call_expert_analysis r = true) /\
  (forall a r, TextRefactor.arg_confidence a = None ->
     TextRefactor.validate a = inr r ->
     TextRefactor.confidence r = "incomplete" /\
     TextRefactor.should_call_expert_analysis r = true) /\
  (forall a r, TextReview.arg_confidence a = None ->
     TextReview.validate a = inr r ->
     TextReview.confidence r = "exploring" /\
     TextReview.should_call_expert_analysis r = true).
Proof.
  split; [|split]; intros a r Hnone H.
  - unfold TextAnalyze.validate in H. rewrite Hnone in H.
    split_fields H. default_confidence. now split.
  - unfold TextRefactor.validate in H. rewrite Hnone in H.
    split_fields H. default_confidence. now split.
  - unfold TextReview.validate in H. rewrite Hnone in H.
    split_fields H. default_confidence. now split.
Qed.

Lemma omitted_confidence_calls_expert_analysis_witness :
  (exists r, TextAnalyze.validate Examples.analyze_later_call = inr r /\
             TextAnalyze.confidence r = "exploring" /\
             TextAnalyze.should_call_expert_analysis r = true) /\
  (exists r, TextRefactor.validate Examples.refactor_later_call = inr r /\
             TextRefactor.confidence r = "incomplete" /\
             TextRefactor.should_call_expert_analysis r = true) /\
  (exists r, TextReview.validate Examples.review_later_call = inr r /\
             TextReview.confidence r = "exploring" /\
             TextReview.should_call_expert_analysis r = true).
Proof.
  destruct omitted_confidence_calls_expert_analysis as (Ha & Hf & Hv).
  split; [|split].
  - eexists. split; [reflexivity|].
    apply (Ha Examples.analyze_later_call); reflexivity.
  - eexists. split; [reflexivity|].
    apply (Hf Examples.refactor_later_call); reflexivity.
  - eexists. split; [reflexivity|].
    apply (Hv Examples.review_later_call); reflexivity.
Defined.

(** A word of a vocabulary, case by case. *)
Ltac each_word H :=
  apply py_in_In in H; simpl in H;
  repeat match type of H with
    | _ \/ _ => destruct H as [H|H]
    end;
  [rewrite <- H .. | contradiction].

(** The decision of [should_embed_files_as_context] once every test but
    the last one has failed. *)
Ltac embedding_settled :=
  match goal with
  | |- true = false <-> _ =>
      split; [intros H; discriminate H | intros H; tauto || lia]
  end.

Ltac light_or_heavy :=
  unfold py_in; simpl;
  split;
  [ intros H; try discriminate H; repeat split;
    first [lia | discriminate | tauto]
  | intros H; decompose record H; try reflexivity; intuition discriminate ].

(** X8. For a valid request, files are left out exactly at a step after the
    first one, when no relevant file is listed (and, in textrefactor, no
    style guide example) and the classification is one of the remaining
    words of the vocabulary: style, readability or general in textanalyze,
    style or flow in textrefactor, clarity or style in textreview. *)
Theorem files_left_out_iff :
  (forall r, TextAnalyze.valid r ->
     (TextAnalyze.should_embed_files_as_context r = false
      <-> 1 < TextAnalyze.step_number r
          /\ ~ non_empty (TextAnalyze.relevant_files r)
          /\ In (TextAnalyze.analysis_type r) ["style"; "readability"; "general"])) /\
  (forall r, TextRefactor.valid r ->
     (TextRefactor.should_embed_files_as_context r = false
      <-> 1 < TextRefactor.step_number r
          /\ ~ non_empty (TextRefactor.relevant_files r)
          /\ ~ non_empty (TextRefactor.style_guide_examples r)
          /\ In (TextRefactor.refactor_type r) ["style"; "flow"])) /\
  (forall r, TextReview.valid r ->
     (TextReview.should_embed_files_as_context r = false
      <-> 1 < TextReview.step_number r
          /\ ~ non_empty (TextReview.relevant_files r)
          /\ In (TextReview.review_type r) ["clarity"; "style"])).
Proof.
  split; [|split]; intros r.
  - intros (Hstep & _ & Hword & _).
    unfold TextAnalyze.should_embed_files_as_context.
    rewrite <- !truthy_non_empty.
    destruct (Z.eqb_spec (TextAnalyze.step_number r) 1) as [E|E];
      [embedding_settled|].
    destruct (truthy (TextAnalyze.relevant_files r)); [embedding_settled|].
    each_word Hword; light_or_heavy.
  - intros (Hstep & _ & Hword & _).
    unfold TextRefactor.should_embed_files_as_context.
    rewrite <- !truthy_non_empty.
    destruct (Z.eqb_spec (TextRefactor.step_number r) 1) as [E|E];
      [embedding_settled|].
    destruct (truthy (TextRefactor.relevant_files r)); [embedding_settled|].
    destruct (truthy (TextRefactor.style_guide_examples r));
      [embedding_settled|].
    each_word Hword; light_or_heavy.
  - intros (Hstep & _ & Hword & _).
    unfold TextReview.should_embed_files_as_context.
    rewrite <- !truthy_non_empty.
    destruct (Z.eqb_spec (TextReview.step_number r) 1) as [E|E];
      [embedding_settled|].
    destruct (truthy (TextReview.relevant_files r)); [embedding_settled|].
    each_word Hword; light_or_heavy.
Qed.

Lemma analyze_step_2_valid : TextAnalyze.valid Examples.analyze_step_2.
Proof.
  unfold TextAnalyze.valid; simpl.
  repeat split; try reflexivity; try lia. discriminate.
Qed.

Lemma refactor_step_2_valid : TextRefactor.valid Examples.refactor_step_2.
Proof.
  unfold TextRefactor.valid; simpl.
  repeat split; try reflexivity; try lia. discriminate.
Qed.

Lemma review_step_2_valid : TextReview.valid Examples.review_step_2.
Proof.
  unfold TextReview.valid; simpl.
  repeat split; try reflexivity; try lia. discriminate.
Qed.

Lemma not_non_empty_nil {A : Type} : ~ non_empty (Some (@nil A)).
Proof. intros (x & rest & E). discriminate E. Qed.

Lemma files_left_out_iff_witness :
  TextAnalyze.should_embed_files_as_context Examples.analyze_step_2 = false /\
  TextRefactor.should_embed_files_as_context Examples.refactor_step_2 = false /\
  TextReview.should_embed_files_as_context Examples.review_step_2 = false.
Proof.
  destruct files_left_out_iff as (Ha & Hf & Hv).
  split; [|split].
  - apply (proj2 (Ha _ analyze_step_2_valid)).
    split; [simpl; lia|]. split; [apply not_non_empty_nil|]. simpl. tauto.
  - apply (proj2 (Hf _ refactor_step_2_valid)).
    split; [simpl; lia|]. split; [apply not_non_empty_nil|].
    split; [apply not_non_empty_nil|]. simpl. tauto.
  - apply (proj2 (Hv _ review_step_2_valid)).
    split; [simpl; lia|]. split; [apply not_non_empty_nil|]. simpl. tauto.
Defined.

(** X9. In each tool the step-1 instructions are given at step 1 and at no other
    step, so the instructions tell the step apart; and whenever files are
    left out, the instructions are the later-step ones. *)
Theorem actions_follow_the_step :
  ((forall r, TextAnalyze.get_required_actions r = TextAnalyze.step_1_actions
              <-> TextAnalyze.step_number r = 1) /\
   (forall r, TextAnalyze.should_embed_files_as_context r = false ->
              TextAnalyze.get_required_actions r = TextAnalyze.later_step_actions)) /\
  ((forall r, TextRefactor.get_required_actions r = TextRefactor.step_1_actions
              <-> TextRefactor.step_number r = 1) /\
   (forall r, TextRefactor.should_embed_files_as_context r = false ->
              TextRefactor.get_required_actions r = TextRefactor.later_step_actions)) /\
  ((forall r, TextReview.get_required_actions r = TextReview.step_1_actions
              <-> TextReview.step_number r = 1) /\
   (forall r, TextReview.should_embed_files_as_context r = false ->
              TextReview.get_required_actions r = TextReview.later_step_actions)).
Proof.
  unfold TextAnalyze.get_required_actions, TextRefactor.get_required_actions,
    TextReview.get_required_actions,
    TextAnalyze.should_embed_files_as_context,
    TextRefactor.should_embed_files_as_context,
    TextReview.should_embed_files_as_context.
  repeat match goal with |- _ /\ _ => split end; intros r;
    match goal with
    | |- context [Z.eqb ?n 1] => destruct (Z.eqb_spec n 1) as [E|E]
    end;
    match goal with
    | |- _ <-> _ =>
        split; intros H;
        first [exact E | reflexivity | contradiction | cbv in H; discriminate H]
    | |- _ -> _ => intros H; first [discriminate H | reflexivity]
    end.
Qed.

Lemma actions_follow_the_step_witness :
  TextAnalyze.get_required_actions Examples.analyze_step_2
  = TextAnalyze.later_step_actions /\
  TextRefactor.get_required_actions Examples.refactor_step_2
  = TextRefactor.later_step_actions /\
  TextReview.get_required_actions Examples.review_step_2
  = TextReview.later_step_actions.
Proof.
  destruct actions_follow_the_step as ((_ & Ha) & (_ & Hf) & (_ & Hv)).
  split; [|split].
  - apply Ha. reflexivity.
  - apply Hf. reflexivity.
  - apply Hv. reflexivity.
Defined.

(** ** The lines of the expert-analysis context *)

Lemma upper_ascii_line_feed (c : ascii) :
  Ascii.eqb (upper_ascii c) (ascii_of_nat 10) = Ascii.eqb c (ascii_of_nat 10).
Proof.
  destruct c as [[] [] [] [] [] [] [] []]; reflexivity.
Qed.

(** Upper case neither adds nor removes a line feed. *)
Lemma single_line_upper (s : string) : single_line (upper s) = single_line s.
Proof.
  induction s as [|c s IH]; [reflexivity|].
  cbn [upper single_line]. now rewrite upper_ascii_line_feed, IH.
Qed.

(** A word of a vocabulary of one-line words is one line. *)
Lemma word_single_line (x : string) (words : list string) :
  py_in x words = true ->
  forallb single_line words = true ->
  single_line x = true.
Proof.
  intros Hx Hw. apply py_in_In in Hx.
  rewrite forallb_forall in Hw. now apply Hw.
Qed.

(** Splitting the join of one-line parts gives the parts back. *)
Lemma lines_join (parts : list string) :
  parts <> [] ->
  forallb single_line parts = true ->
  lines (join nl parts) = parts.
Proof.
  induction parts as [|x parts IH]; [congruence|].
  intros _ H. cbn [forallb] in H. apply andb_true_iff in H as [Hx Hp].
  destruct parts as [|y parts].
  - now apply lines_single_line.
  - rewrite join_cons2, lines_app, lines_single_line by assumption.
    rewrite IH by (assumption || discriminate). reflexivity.
Qed.

(** The lines that an optional section adds to a text. *)
Lemma lines_optional_section {A : Type} (text title : string)
  (render : A -> string) (items : option (list A)) :
  single_line title = true ->
  forallb single_line (map render (entries items)) = true ->
  lines (text ++ optional_section title render items)
  = (lines text ++ section_lines title render items)%list.
Proof.
  intros Ht Hi. unfold optional_section, section_lines.
  destruct (truthy items).
  - rewrite lines_section by assumption. now rewrite map_map.
  - now rewrite append_empty_r, app_nil_r.
Qed.

(** The three parts of a context, regrouped from the left. *)
Lemma context_regrouped (heading findings issues closing : string) :
  heading ++ nl ++ findings ++ issues ++ closing
  = ((heading ++ nl ++ findings) ++ issues) ++ closing.
Proof. now rewrite !append_assoc. Qed.

(** X10. The context of a valid textanalyze request, line by line, when no
    rendered issue and no theme holds a line feed: three heading lines with
    the analysis type in upper case, the confidence and the step counters,
    an empty line, the findings title, the lines of the findings, then the
    issues section if there is an issue, then the themes section if there is
    a theme, and nothing else. *)
Theorem analyze_context_lines (str_dict : Issue -> string) (r : TextAnalyze.Request) :
  TextAnalyze.valid r ->
  forallb single_line (map str_dict (entries (TextAnalyze.issues_found r))) = true ->
  forallb single_line (entries (TextAnalyze.relevant_context r)) = true ->
  lines (TextAnalyze.prepare_expert_analysis_context str_dict r)
  = ([ ("TEXT ANALYSIS REQUEST - " ++ upper (TextAnalyze.analysis_type r))%string;
       ("Analysis confidence: " ++ TextAnalyze.confidence r)%string;
       ("Step " ++ str_int (TextAnalyze.step_number r) ++ " of "
          ++ str_int (TextAnalyze.total_steps r))%string;
       EmptyString;
       "ANALYSIS FINDINGS:"%string ]
     ++ lines (TextAnalyze.findings r)
     ++ section_lines "ISSUES IDENTIFIED:" str_dict (TextAnalyze.issues_found r)
     ++ section_lines "KEY THEMES/ARGUMENTS:" (fun x => x)
          (TextAnalyze.relevant_context r))%list.
Proof.
  intros (_ & _ & Htype & _ & Hconf & _) Hissues Hthemes.
  rewrite analyze_context_shape, context_regrouped.
  rewrite !lines_optional_section by (rewrite ?map_id; trivial).
  rewrite lines_app. unfold TextAnalyze.heading.
  rewrite lines_join; [now rewrite <- !app_assoc | discriminate |].
  cbn [forallb].
  rewrite !single_line_app, single_line_upper, !single_line_str_int.
  rewrite (word_single_line _ _ Htype), (word_single_line _ _ Hconf);
    reflexivity.
Qed.

(** X11. The context of a valid textrefactor request, line by line, when no
    rendered issue and no focus area holds a line feed: the heading, the
    lines of the findings, then the opportunities if there is one, then the
    focus areas if there is one, and nothing else; [relevant_context] and
    [style_guide_examples] give no line. *)
Theorem refactor_context_lines (str_dict : Issue -> string) (r : TextRefactor.Request) :
  TextRefactor.valid r ->
  forallb single_line (map str_dict (entries (TextRefactor.issues_found r))) = true ->
  forallb single_line (entries (TextRefactor.focus_areas r)) = true ->
  lines (TextRefactor.prepare_expert_analysis_context str_dict r)
  = ([ ("TEXT REFACTORING REQUEST - " ++ upper (TextRefactor.refactor_type r))%string;
       ("Refactoring confidence: " ++ TextRefactor.confidence r)%string;
       ("Step " ++ str_int (TextRefactor.step_number r) ++ " of "
          ++ str_int (TextRefactor.total_steps r))%string;
       EmptyString;
       "REFACTORING FINDINGS:"%string ]
     ++ lines (TextRefactor.findings r)
     ++ section_lines "REFACTORING OPPORTUNITIES:" str_dict
          (TextRefactor.issues_found r)
     ++ section_lines "FOCUS AREAS:" (fun x => x) (TextRefactor.focus_areas r))%list.
Proof.
  intros (_ & _ & Htype & Hconf & _) Hissues Hareas.
  rewrite refactor_context_shape, context_regrouped.
  rewrite !lines_optional_section by (rewrite ?map_id; trivial).
  rewrite lines_app. unfold TextRefactor.heading.
  rewrite lines_join; [now rewrite <- !app_assoc | discriminate |].
  cbn [forallb].
  rewrite !single_line_app, single_line_upper, !single_line_str_int.
  rewrite (word_single_line _ _ Htype), (word_single_line _ _ Hconf);
    reflexivity.
Qed.

(** X12. The context of a valid textreview request, line by line, when no
    rendered issue holds a line feed: the heading, the lines of the
    findings, then the issues section if there is an issue, and nothing
    else; every issue is listed whatever [severity_filter] says, and
    [relevant_context] and [standards] give no line. *)
Theorem review_context_lines (str_dict : Issue -> string) (r : TextReview.Request) :
  TextReview.valid r ->
  forallb single_line (map str_dict (entries (TextReview.issues_found r))) = true ->
  lines (TextReview.prepare_expert_analysis_context str_dict r)
  = ([ ("TEXT REVIEW REQUEST - " ++ upper (TextReview.review_type r))%string;
       ("Review confidence: " ++ TextReview.confidence r)%string;
       ("Step " ++ str_int (TextReview.step_number r) ++ " of "
          ++ str_int (TextReview.total_steps r))%string;
       EmptyString;
       "REVIEW FINDINGS:"%string ]
     ++ lines (TextReview.findings r)
     ++ section_lines "ISSUES IDENTIFIED:" str_dict (TextReview.issues_found r))%list.
Proof.
  intros (_ & _ & Htype & _ & Hconf & _) Hissues.
  rewrite review_context_shape.
  replace (TextReview.heading r ++ nl ++ TextReview.findings r
           ++ optional_section "ISSUES IDENTIFIED:" str_dict (TextReview.issues_found r))
    with ((TextReview.heading r ++ nl ++ TextReview.findings r)
          ++ optional_section "ISSUES IDENTIFIED:" str_dict (TextReview.issues_found r))
    by now rewrite !append_assoc.
  rewrite !lines_optional_section by trivial.
  rewrite lines_app. unfold TextReview.heading.
  rewrite lines_join; [now rewrite <- !app_assoc | discriminate |].
  cbn [forallb].
  rewrite !single_line_app, single_line_upper, !single_line_str_int.
  rewrite (word_single_line _ _ Htype), (word_single_line _ _ Hconf);
    reflexivity.
Qed.

Lemma analyze_context_lines_witness :
  lines (TextAnalyze.prepare_expert_analysis_context repr_dict
           Examples.analyze_step_2)
  = [ "TEXT ANALYSIS REQUEST - GENERAL"; "Analysis confidence: medium";
      "Step 2 of 3"; ""; "ANALYSIS FINDINGS:";
      "The second section restates the first"; ""; "ISSUES IDENTIFIED:";
      "- {'severity': 'high', 'description': 'Weak thesis'}";
      "- {'severity': 'low', 'type': 'flow', 'description': 'The introduction is too long'}";
      ""; "KEY THEMES/ARGUMENTS:"; "- progress"; "- memory" ].
Proof.
  exact (analyze_context_lines repr_dict Examples.analyze_step_2
           analyze_step_2_valid (single_line_repr_dict _) eq_refl).
Defined.

Lemma refactor_context_lines_witness :
  lines (TextRefactor.prepare_expert_analysis_context repr_dict
           Examples.refactor_step_2)
  = [ "TEXT REFACTORING REQUEST - STYLE"; "Refactoring confidence: partial";
      "Step 2 of 4"; ""; "REFACTORING FINDINGS:"; "Sections 2 and 3 overlap";
      ""; "REFACTORING OPPORTUNITIES:";
      "- {'severity': 'low', 'type': 'flow', 'description': 'The introduction is too long'}";
      ""; "FOCUS AREAS:"; "- introduction"; "- transitions" ].
Proof.
  exact (refactor_context_lines repr_dict Examples.refactor_step_2
           refactor_step_2_valid (single_line_repr_dict _) eq_refl).
Defined.

Lemma review_context_lines_witness :
  lines (TextReview.prepare_expert_analysis_context repr_dict
           Examples.review_step_2)
  = [ "TEXT REVIEW REQUEST - CLARITY"; "Review confidence: high"; "Step 2 of 3";
      ""; "REVIEW FINDINGS:"; "Claims are not sourced" ].
Proof.
  exact (review_context_lines repr_dict Examples.review_step_2
           review_step_2_valid (single_line_repr_dict _)).
Defined.

(** ** One line for each field *)




